(** * mcq-grader: the grid-resolution and grading core of [McqMarker]

    A shallow embedding of [backend/yolo_based_mark_detection.py], of the
    handler [process_direct] of [backend/main.py] and of the two helpers of
    [backend/tests.py] it calls, with the properties the specification states
    about them.

    Modelling conventions.
    - Pixel coordinates, ratios and confidences are Python floats, that is
      IEEE 754 binary64 numbers; they are embedded as Rocq's primitive
      floats, so [+], [-], [*], [/] and [np.sqrt] round to nearest (ties to
      even) exactly as in the source, a decimal literal such as [0.05]
      denotes the binary64 number nearest to it, and an [int] that meets a
      float in an operation is converted to a float first ([Py.float]).
    - The detector's coordinates are finite pixel positions.  The two
      arithmetic exceptions CPython can raise on other floats lie outside
      the model, which is total there: [int(x)] raises on a NaN or an
      infinity ([Py.int] yields [0]), and [x ** 2] raises [OverflowError]
      when the square exceeds the binary64 range ([Py.pow2] is the rounded
      product [x * x], which is then [inf]).  [x ** 2] is taken to be
      correctly rounded, and the quotient of two ints is written as the
      quotient of the converted ints, which is the same number for pixel
      counts (below [2^53]).
    - The object [self] is a record that is passed through every method;
      the list held by [self.mark_scheme] lives in a store ([World]) because
      it may be shared between objects; [print] appends to [stdout].  Only
      the error and refusal messages of [McqMarker] are recorded: the
      diagnostic prints (the f-strings and the two 'Plot saved to ...'
      lines), the S3 download, image loading and the matplotlib overlays,
      which are drawn on the whole resized image, do not influence any field
      and are left out.
    - The detector (YOLO) is an input: a list of classified boxes.
    - MongoDB is a record of its two collections; [ObjectId], the
      constructor of the [bson] library, is a parameter of the service. *)

From Stdlib Require Import ZArith QArith Qabs Floats.
From stdpp Require Import gmap strings list pretty.

#[local] Set Warnings "-inexact-float".
#[local] Open Scope string_scope.
#[local] Open Scope list_scope.

(** ** Python numerics *)

Module Py.

(** [int(x)] on a float: truncation toward zero. *)
Definition int (x : float) : Z :=
  match Prim2SF x with
  | S754_finite s m e =>
      let magnitude :=
        match e with
        | Zneg p => Z.shiftr (Z.pos m) (Z.pos p)
        | _ => Z.shiftl (Z.pos m) e
        end in
      if s then (- magnitude)%Z else magnitude
  | _ => 0%Z
  end.

(** [x ** 2] on a float. *)
Definition pow2 (x : float) : float := (x * x)%float.

(** [float('inf')] *)
Definition inf : float := infinity.

(** [a < b] on floats. *)
Definition ltb (a b : float) : bool := (a <? b)%float.

(** [a <= b] on floats. *)
Definition leb (a b : float) : bool := (a <=? b)%float.

(** [range(a, b)]. *)
Definition range (a b : Z) : list Z := seqZ a (b - a).

(** [for i in range(n): s = body(s, i)]. *)
Definition for_range {St : Type} (n : nat) (body : St → nat → St) (s : St) : St :=
  fold_left body (seq 0 n) s.

(** [for x in xs: s = body(s, x)]. *)
Definition for_each {St A : Type} (xs : list A) (body : St → A → St) (s : St) : St :=
  fold_left body xs s.

(** [list(set(xs))]: the distinct elements, in an order the language does
    not fix.  Callers only look at its length and, when that is 1, at its
    single element. *)
Definition list_set (xs : list string) : list string :=
  elements (list_to_set xs : gset string).

(** [str(n)] for a non-negative int. *)
Definition str (n : nat) : string := pretty n.

(** [float(n)] / the conversion of an int operand that meets a float: the
    binary64 number nearest to [n] (which is [n] itself below [2^53]). *)
Definition float (n : Z) : PrimFloat.float :=
  SF2Prim (binary_normalize prec emax n 0 false).

End Py.

(** [np.sqrt] on a float. *)
Definition np_sqrt (x : float) : float := sqrt x.

(** ** Data model *)

(** A detector box: [box.xyxy[0]], [box.cls[0]], [box.conf[0]]. *)
Record DetectionBox : Type := {
  x1 : float; y1 : float; x2 : float; y2 : float;
  class_id : Z;
  box_confidence : float
}.

(** [(x_start, y_start, x_end, y_end)] *)
Definition ROI : Type := (float * float * float * float)%type.

(** [{"center_x": .., "center_y": .., "confidence": ..}] *)
Record Mark : Type := {
  center_x : float;
  center_y : float;
  confidence : float
}.

(** [{'x': .., 'y': .., 'col': .., 'digit': ..}] *)
Record DigitCenter : Type := {
  dc_x : float;
  dc_y : float;
  dc_col : nat;
  dc_digit : string
}.

(** [{'x': .., 'y': .., 'option': ..}] *)
Record BubbleCenter : Type := {
  bc_x : float;
  bc_y : float;
  bc_option : string
}.

(** [{'answer_to': .., 'answer': ..}] *)
Record SchemeEntry : Type := {
  se_answer_to : Z;
  se_answer : string
}.

(** [{'answer_to': .., 'answer': .., 'correct_answer': ..}] *)
Record StudentAnswer : Type := {
  answer_to : Z;
  answer : string;
  correct_answer : string
}.

#[global] Instance SchemeEntry_eq_dec : EqDecision SchemeEntry.
Proof. solve_decision. Defined.

#[global] Instance StudentAnswer_eq_dec : EqDecision StudentAnswer.
Proof. solve_decision. Defined.

(** *** The store *)

(** Addresses of list objects. *)
Definition loc : Type := nat.

Record World : Type := {
  heap : gmap loc (list SchemeEntry);
  stdout : list string
}.

(** The list object that [def __init__(..., scheme=[])] creates, once, when
    the class body is executed. *)
Definition default_scheme_loc : loc := 0%nat.

(** The world right after the module has been imported. *)
Definition module_loaded : World :=
  {| heap := {[ default_scheme_loc := [] ]}; stdout := [] |}.

Definition print (line : string) (w : World) : World :=
  {| heap := heap w; stdout := stdout w ++ [line] |}.

(** Contents of a list object. *)
Definition deref (w : World) (l : loc) : list SchemeEntry :=
  default [] (heap w !! l).

(** [obj.append(e)] on the list object at [l]. *)
Definition heap_append (l : loc) (e : SchemeEntry) (w : World) : World :=
  {| heap := <[ l := deref w l ++ [e] ]> (heap w); stdout := stdout w |}.

(** A list display [[...]] evaluated by a caller: a new object. *)
Definition new_list (xs : list SchemeEntry) (w : World) : loc * World :=
  let l := fresh (dom (heap w)) in
  (l, {| heap := <[ l := xs ]> (heap w); stdout := stdout w |}).

(** *** The [McqMarker] object *)

Record McqMarker : Type := {
  image_path : string;
  indx_roi_coords : option ROI;
  answers_roi_coords : option ROI;
  detected_indx_marks : list Mark;
  detected_answers_marks : list Mark;
  test_id : string;
  questions : Z;
  is_scheme : bool;
  index_number : string;
  student_answer : list StudentAnswer;
  mark_scheme : loc;
  score : Z
}.

(** [self.options], assigned once in [__init__] and never rebound. *)
Definition options : list string := ["A"; "B"; "C"; "D"; "E"].

(** [McqMarker.__init__]; [scheme = None] is a call that omits the [scheme]
    argument, which binds the parameter to the default object. *)
Definition McqMarker_init (image_path test_id : string) (total_questions : Z)
    (is_scheme : bool) (scheme : option loc) : McqMarker :=
  {| image_path := image_path;
     indx_roi_coords := None;
     answers_roi_coords := None;
     detected_indx_marks := [];
     detected_answers_marks := [];
     test_id := test_id;
     questions := total_questions;
     is_scheme := is_scheme;
     index_number := "";
     student_answer := [];
     mark_scheme := default default_scheme_loc scheme;
     score := 0 |}.

(** Field updates ([self.f = v]). *)
Definition set_indx_roi_coords (v : option ROI) (self : McqMarker) : McqMarker :=
  {| image_path := image_path self; indx_roi_coords := v;
     answers_roi_coords := answers_roi_coords self;
     detected_indx_marks := detected_indx_marks self;
     detected_answers_marks := detected_answers_marks self;
     test_id := test_id self; questions := questions self;
     is_scheme := is_scheme self; index_number := index_number self;
     student_answer := student_answer self; mark_scheme := mark_scheme self;
     score := score self |}.

Definition set_answers_roi_coords (v : option ROI) (self : McqMarker) : McqMarker :=
  {| image_path := image_path self; indx_roi_coords := indx_roi_coords self;
     answers_roi_coords := v;
     detected_indx_marks := detected_indx_marks self;
     detected_answers_marks := detected_answers_marks self;
     test_id := test_id self; questions := questions self;
     is_scheme := is_scheme self; index_number := index_number self;
     student_answer := student_answer self; mark_scheme := mark_scheme self;
     score := score self |}.

Definition set_detected_indx_marks (v : list Mark) (self : McqMarker) : McqMarker :=
  {| image_path := image_path self; indx_roi_coords := indx_roi_coords self;
     answers_roi_coords := answers_roi_coords self;
     detected_indx_marks := v;
     detected_answers_marks := detected_answers_marks self;
     test_id := test_id self; questions := questions self;
     is_scheme := is_scheme self; index_number := index_number self;
     student_answer := student_answer self; mark_scheme := mark_scheme self;
     score := score self |}.

Definition set_detected_answers_marks (v : list Mark) (self : McqMarker) : McqMarker :=
  {| image_path := image_path self; indx_roi_coords := indx_roi_coords self;
     answers_roi_coords := answers_roi_coords self;
     detected_indx_marks := detected_indx_marks self;
     detected_answers_marks := v;
     test_id := test_id self; questions := questions self;
     is_scheme := is_scheme self; index_number := index_number self;
     student_answer := student_answer self; mark_scheme := mark_scheme self;
     score := score self |}.

Definition set_index_number (v : string) (self : McqMarker) : McqMarker :=
  {| image_path := image_path self; indx_roi_coords := indx_roi_coords self;
     answers_roi_coords := answers_roi_coords self;
     detected_indx_marks := detected_indx_marks self;
     detected_answers_marks := detected_answers_marks self;
     test_id := test_id self; questions := questions self;
     is_scheme := is_scheme self; index_number := v;
     student_answer := student_answer self; mark_scheme := mark_scheme self;
     score := score self |}.

Definition set_student_answer (v : list StudentAnswer) (self : McqMarker) : McqMarker :=
  {| image_path := image_path self; indx_roi_coords := indx_roi_coords self;
     answers_roi_coords := answers_roi_coords self;
     detected_indx_marks := detected_indx_marks self;
     detected_answers_marks := detected_answers_marks self;
     test_id := test_id self; questions := questions self;
     is_scheme := is_scheme self; index_number := index_number self;
     student_answer := v; mark_scheme := mark_scheme self;
     score := score self |}.

Definition set_score (v : Z) (self : McqMarker) : McqMarker :=
  {| image_path := image_path self; indx_roi_coords := indx_roi_coords self;
     answers_roi_coords := answers_roi_coords self;
     detected_indx_marks := detected_indx_marks self;
     detected_answers_marks := detected_answers_marks self;
     test_id := test_id self; questions := questions self;
     is_scheme := is_scheme self; index_number := index_number self;
     student_answer := student_answer self; mark_scheme := mark_scheme self;
     score := v |}.

(** ** Index block: [McqMarker.start_indx_processing] *)

Definition num_columns : nat := 7.
Definition num_digits_per_column : nat := 10.

(** The rectangle the index grid is laid out on: the detected ROI reduced by
    fixed ratios; returns [(x_start, y_start, x_end, y_end)]. *)
Definition indx_calc_rect (roi : ROI) : ROI :=
  let '(orig_x_start, orig_y_start, orig_x_end, orig_y_end) := roi in
  let padding_x := ((orig_x_end - orig_x_start) * 0.05)%float in
  let padding_y_t := ((orig_y_end - orig_y_start) * 0.095)%float in
  let padding_y_b := ((orig_y_end - orig_y_start) * 0.08)%float in
  let x_start := (orig_x_start + padding_x)%float in
  let y_start := (orig_y_start + padding_y_t)%float in
  let x_end := (orig_x_end - padding_x)%float in
  let y_end := (orig_y_end - padding_y_b)%float in
  (x_start, y_start, x_end, y_end).

(** The list [digit_centers] built by the two nested loops. *)
Definition digit_centers (x_start y_start column_width_segment
    digit_row_height_segment : float) : list DigitCenter :=
  Py.for_range num_columns (λ digit_centers col_idx,
    Py.for_range num_digits_per_column (λ digit_centers digit,
      let center_x := (x_start + (Py.float (Z.of_nat col_idx) * column_width_segment)
                       + (column_width_segment / 2))%float in
      let center_y := (y_start + (Py.float (Z.of_nat digit) * digit_row_height_segment)
                       + (digit_row_height_segment / 2))%float in
      digit_centers ++ [ {| dc_x := center_x; dc_y := center_y;
                            dc_col := col_idx; dc_digit := Py.str digit |} ])
      digit_centers)
    [].

(** The inner loop over [digit_centers] for one mark; the state is
    [(min_dist, closest_digit_center)]. *)
Definition closest_digit_center (mark : Mark) (digit_centers : list DigitCenter)
    : option DigitCenter :=
  snd (Py.for_each digit_centers (λ '(min_dist, closest_digit_center) center,
         let dist :=
           np_sqrt (Py.pow2 (center_x mark - dc_x center)
                    + Py.pow2 (center_y mark - dc_y center))%float in
         if Py.ltb dist min_dist then (dist, Some center)
         else (min_dist, closest_digit_center))
       (Py.inf, None)).

(** [marks_per_column]: one list of digit labels per column.  The index
    written to is the [col] of an element of [digit_centers], which is below
    [num_columns], so the [IndexError] of an out-of-range subscript cannot
    occur ([alter] leaves the list alone there). *)
Definition map_indx_marks (digit_centers : list DigitCenter) (marks : list Mark)
    : list (list string) :=
  Py.for_each marks (λ marks_per_column mark,
    match closest_digit_center mark digit_centers with
    | Some closest => alter (λ col, col ++ [dc_digit closest]) (dc_col closest) marks_per_column
    | None => marks_per_column
    end)
    (replicate num_columns []).

(** The body of the disambiguation loop for one column; [unique_digits[0]]
    is read under the test that the list has one element. *)
Definition index_digit (marks_in_col : list string) : string :=
  match marks_in_col with
  | [] => "X"
  | _ =>
      let unique_digits := Py.list_set marks_in_col in
      if decide (length unique_digits = 1%nat) then default "M" (unique_digits !! 0%nat)
      else "M"
  end.

Definition index_digits (marks_per_column : list (list string)) : list string :=
  Py.for_range num_columns (λ index_digits col_idx,
    let marks_in_col := default [] (marks_per_column !! col_idx) in
    <[ col_idx := index_digit marks_in_col ]> index_digits)
    (replicate num_columns "X").

Definition start_indx_processing (w : World) (self : McqMarker) : World * McqMarker :=
  match indx_roi_coords self with
  | None => (print "Error: Index ROI coordinates not detected by the model." w, self)
  | Some roi =>
      let '(x_start, y_start, x_end, y_end) := indx_calc_rect roi in
      let roi_height := (y_end - y_start)%float in
      let roi_width := (x_end - x_start)%float in
      if Py.leb roi_height 0 || Py.leb roi_width 0 then
        (print "Error: Detected Index ROI dimensions are invalid." w, self)
      else
        let column_width_segment := (roi_width / Py.float (Z.of_nat num_columns))%float in
        let digit_row_height_segment :=
          (roi_height / Py.float (Z.of_nat num_digits_per_column))%float in
        let digit_centers :=
          digit_centers x_start y_start column_width_segment digit_row_height_segment in
        let marks_per_column := map_indx_marks digit_centers (detected_indx_marks self) in
        let indxNo := String.concat "" (index_digits marks_per_column) in
        (w, set_index_number indxNo self)
  end.

(** ** Answer block *)

(** A [dict] whose iteration order matters: the pairs in insertion order.
    Assigning to a key that is present keeps its position. *)
Module OrderedDict.

Definition t (V : Type) : Type := list (Z * V).

Fixpoint get {V : Type} (k : Z) (d : t V) : option V :=
  match d with
  | [] => None
  | (k', v) :: d' => if decide (k' = k) then Some v else get k d'
  end.

(** [k in d] *)
Definition contains {V : Type} (k : Z) (d : t V) : bool :=
  if get k d is Some _ then true else false.

(** [d[k] = v] *)
Fixpoint set {V : Type} (k : Z) (v : V) (d : t V) : t V :=
  match d with
  | [] => [(k, v)]
  | (k', v') :: d' =>
      if decide (k' = k) then (k, v) :: d' else (k', v') :: set k v d'
  end.

(** [d.items()] *)
Definition items {V : Type} (d : t V) : list (Z * V) := d.

End OrderedDict.

Module AnswerGrid.

(** [column_definitions_ratios], in the order of the dict display. *)
Definition column_definitions_ratios : list (string * (float * float)) :=
  [ ("firstCol",  (35 / 965,  175 / 965)%float);
    ("secondCol", (235 / 965, 375 / 965)%float);
    ("thirdCol",  (435 / 965, 570 / 965)%float);
    ("fourthCol", (635 / 965, 770 / 965)%float);
    ("fifthCol",  (830 / 965, 965 / 965)%float) ].

Definition questions_per_column : nat := 40.
Definition options_per_question : nat := length options.
Definition questions_per_group : nat := 5.
Definition num_groups_per_column : nat := 8.
Definition num_gaps : nat := num_groups_per_column - 1.

Definition total_question_height_ratio : float :=
  (1 - (Py.float (Z.of_nat num_gaps) * 0.022))%float.
Definition segment_height_ratio : float :=
  (total_question_height_ratio / Py.float (Z.of_nat questions_per_column))%float.
Definition gap_height_ratio : float := 0.022%float.

(** The three variables the loops of [_calculate_bubble_centers] update. *)
Record State : Type := {
  current_y_ratio : float;
  q_num : Z;
  bubble_centers : OrderedDict.t (list BubbleCenter)
}.

(** [if q_num not in bubble_centers: bubble_centers[q_num] = []]
    followed by [bubble_centers[q_num].append(bubble_center)]. *)
Definition append_center (q_num : Z) (bubble_center : BubbleCenter)
    (bubble_centers : OrderedDict.t (list BubbleCenter))
    : OrderedDict.t (list BubbleCenter) :=
  let bubble_centers :=
    if OrderedDict.contains q_num bubble_centers then bubble_centers
    else OrderedDict.set q_num [] bubble_centers in
  match OrderedDict.get q_num bubble_centers with
  | Some centers => OrderedDict.set q_num (centers ++ [bubble_center]) bubble_centers
  | None => bubble_centers
  end.

Section Layout.

Variables x_start y_start roi_width roi_height : float.

(** First loop: pixel boundaries of the five column bands. *)
Definition column_boundaries : list (string * (Z * Z)) :=
  Py.for_each column_definitions_ratios
    (λ column_boundaries '(col_name, (start_ratio, end_ratio)),
       let start_px := Py.int (roi_width * start_ratio) in
       let end_px := Py.int (roi_width * end_ratio) in
       column_boundaries ++ [(col_name, (start_px, end_px))])
    [].

(** Loop over [option_idx] for one question row. *)
Definition option_loop (col_start_px : Z) (option_width_px : float)
    (q_center_y_px : Z) (q_num : Z)
    (bubble_centers : OrderedDict.t (list BubbleCenter))
    : OrderedDict.t (list BubbleCenter) :=
  Py.for_range options_per_question (λ bubble_centers option_idx,
    let x_center_px :=
      (Py.float col_start_px + (Py.float (Z.of_nat option_idx) * option_width_px)
       + (option_width_px / 2))%float in
    let bubble_center :=
      {| bc_x := (x_center_px + x_start)%float;
         bc_y := (Py.float q_center_y_px + y_start)%float;
         bc_option := default "" (options !! option_idx) |} in
    append_center q_num bubble_center bubble_centers)
    bubble_centers.

(** Body of the loop over [q_in_group_idx]. *)
Definition row_body (col_start_px : Z) (option_width_px : float) (st : State) : State :=
  let q_center_y_ratio := (current_y_ratio st + (segment_height_ratio / 2))%float in
  let q_center_y_px := Py.int (q_center_y_ratio * roi_height) in
  let bubble_centers :=
    option_loop col_start_px option_width_px q_center_y_px (q_num st)
      (bubble_centers st) in
  {| current_y_ratio := (current_y_ratio st + segment_height_ratio)%float;
     q_num := q_num st + 1;
     bubble_centers := bubble_centers |}.

(** Body of the loop over [group_idx]. *)
Definition group_body (col_start_px : Z) (option_width_px : float)
    (st : State) (group_idx : nat) : State :=
  let st :=
    Py.for_range questions_per_group
      (λ st _, row_body col_start_px option_width_px st) st in
  if decide (group_idx < num_gaps)%nat then
    {| current_y_ratio := (current_y_ratio st + gap_height_ratio)%float;
       q_num := q_num st;
       bubble_centers := bubble_centers st |}
  else st.

(** Body of the loop over the column bands; [col_width_px /
    options_per_question] divides two ints, which yields the float nearest
    to the quotient. *)
Definition column_body (st : State) (col : string * (Z * Z)) : State :=
  let '(col_name, (col_start_px, col_end_px)) := col in
  let col_width_px := (col_end_px - col_start_px)%Z in
  let option_width_px :=
    (Py.float col_width_px / Py.float (Z.of_nat options_per_question))%float in
  let st := {| current_y_ratio := 0; q_num := q_num st;
               bubble_centers := bubble_centers st |} in
  Py.for_range num_groups_per_column (group_body col_start_px option_width_px) st.

Definition _calculate_bubble_centers
    : OrderedDict.t (list BubbleCenter) * list (string * (Z * Z)) * float * float :=
  let st :=
    Py.for_each column_boundaries column_body
      {| current_y_ratio := 0; q_num := 1; bubble_centers := [] |} in
  (bubble_centers st, column_boundaries, segment_height_ratio, gap_height_ratio).

End Layout.

End AnswerGrid.

(** The rectangle the answer grid is laid out on. *)
Definition answers_calc_rect (roi : ROI) : ROI :=
  let '(orig_x_start, orig_y_start, orig_x_end, orig_y_end) := roi in
  let padding_x_l := ((orig_x_end - orig_x_start) * 0.05)%float in
  let padding_x_r := ((orig_x_end - orig_x_start) * 0.04)%float in
  let padding_y_t := ((orig_y_end - orig_y_start) * 0.04)%float in
  let padding_y_b := ((orig_y_end - orig_y_start) * 0.04)%float in
  let x_start := (orig_x_start + padding_x_l)%float in
  let y_start := (orig_y_start + padding_y_t)%float in
  let x_end := (orig_x_end - padding_x_r)%float in
  let y_end := (orig_y_end - padding_y_b)%float in
  (x_start, y_start, x_end, y_end).

(** The state of the scan for one mark:
    [(min_dist, closest_bubble_center, closest_q_num)]. *)
Definition Scan : Type := (float * option BubbleCenter * option Z)%type.

Definition scan_center (mark : Mark) (q_num : Z) (st : Scan) (center : BubbleCenter)
    : Scan :=
  let '(min_dist, closest_bubble_center, closest_q_num) := st in
  let dist :=
    np_sqrt (Py.pow2 (center_x mark - bc_x center)
             + Py.pow2 (center_y mark - bc_y center))%float in
  if Py.ltb dist min_dist then (dist, Some center, Some q_num)
  else (min_dist, closest_bubble_center, closest_q_num).

(** The two nested loops over [bubble_centers_by_q.items()] and [centers]. *)
Definition closest_bubble (mark : Mark)
    (bubble_centers_by_q : OrderedDict.t (list BubbleCenter)) : Scan :=
  Py.for_each (OrderedDict.items bubble_centers_by_q)
    (λ st '(q_num, centers), Py.for_each centers (scan_center mark q_num) st)
    (Py.inf, None, None).

(** [marks_per_question]: a dict that is only probed by key. *)
Definition map_answer_marks (bubble_centers_by_q : OrderedDict.t (list BubbleCenter))
    (marks : list Mark) : gmap Z (list string) :=
  Py.for_each marks (λ marks_per_question mark,
    match closest_bubble mark bubble_centers_by_q with
    | (_, Some closest_bubble_center, Some closest_q_num) =>
        let marks_per_question :=
          if decide (is_Some (marks_per_question !! closest_q_num)) then marks_per_question
          else <[ closest_q_num := [] ]> marks_per_question in
        alter (λ l, l ++ [bc_option closest_bubble_center]) closest_q_num
          marks_per_question
    | _ => marks_per_question
    end)
    ∅.

(** [detected_answer] for one question; [unique_options[0]] is read under
    the test that the list has one element. *)
Definition detected_answer (marks_per_question : gmap Z (list string)) (q_num : Z)
    : string :=
  match marks_per_question !! q_num with
  | Some detected_options =>
      let unique_options := Py.list_set detected_options in
      if decide (length unique_options = 1%nat) then default "M" (unique_options !! 0%nat)
      else "M"
  | None => "X"
  end.

(** [correct_answer] for one question in script mode; the subscript is in
    range under the length test. *)
Definition lookup_correct_answer (mark_scheme : list SchemeEntry) (q_num : Z) : string :=
  if decide (Z.of_nat (length mark_scheme) >= q_num)%Z then
    default "" (se_answer <$> mark_scheme !! Z.to_nat (q_num - 1))
  else "?".

(** Body of [for q_num in range(1, self.questions + 1)]. *)
Definition record_answer (marks_per_question : gmap Z (list string))
    (st : World * McqMarker) (q_num : Z) : World * McqMarker :=
  let '(w, self) := st in
  let detected_answer := detected_answer marks_per_question q_num in
  if is_scheme self then
    (heap_append (mark_scheme self)
       {| se_answer_to := q_num; se_answer := detected_answer |} w, self)
  else
    let correct_answer := lookup_correct_answer (deref w (mark_scheme self)) q_num in
    (w, set_student_answer
          (student_answer self ++
             [ {| answer_to := q_num; answer := detected_answer;
                  correct_answer := correct_answer |} ]) self).

Definition start_answer_processing (w : World) (self : McqMarker) : World * McqMarker :=
  match answers_roi_coords self with
  | None => (print "Error: Answers ROI coordinates not detected by the model." w, self)
  | Some roi =>
      let '(x_start, y_start, x_end, y_end) := answers_calc_rect roi in
      let roi_height := (y_end - y_start)%float in
      let roi_width := (x_end - x_start)%float in
      let '(bubble_centers_by_q, column_boundaries, segment_height_ratio, gap_height_ratio) :=
        AnswerGrid._calculate_bubble_centers x_start y_start roi_width roi_height in
      let marks_per_question :=
        map_answer_marks bubble_centers_by_q (detected_answers_marks self) in
      Py.for_each (Py.range 1 (questions self + 1)) (record_answer marks_per_question)
        (w, self)
  end.

(** ** Scoring, detection adapter and result *)

Definition calculate_score (w : World) (self : McqMarker) : World * McqMarker :=
  if is_scheme self then
    (print "Cannot calculate score for a mark scheme." w, self)
  else
    let self := set_score 0 self in
    (w, Py.for_each (student_answer self) (λ self student_ans,
          if bool_decide (answer student_ans = correct_answer student_ans)
             && negb (bool_decide (answer student_ans ∈ ["X"; "M"]))
          then set_score (score self + 1) self
          else self)
          self).

(** [x_start <= mark['center_x'] < x_end and y_start <= mark['center_y'] < y_end] *)
Definition inside (roi : ROI) (mark : Mark) : bool :=
  let '(x_start, y_start, x_end, y_end) := roi in
  Py.leb x_start (center_x mark) && Py.ltb (center_x mark) x_end
  && Py.leb y_start (center_y mark) && Py.ltb (center_y mark) y_end.

(** [start_shading_processing], from the boxes the model returned for the
    image on. *)
Definition start_shading_processing (boxes : list DetectionBox) (self : McqMarker)
    : McqMarker :=
  let self :=
    Py.for_each boxes (λ self box,
      if decide (class_id box = 1)%Z then
        set_indx_roi_coords (Some (x1 box, y1 box, x2 box, y2 box)) self
      else if decide (class_id box = 2)%Z then
        set_answers_roi_coords (Some (x1 box, y1 box, x2 box, y2 box)) self
      else if decide (class_id box = 0)%Z then
        let center_x := ((x1 box + x2 box) / 2)%float in
        let center_y := ((y1 box + y2 box) / 2)%float in
        let mark := {| center_x := center_x; center_y := center_y;
                       confidence := box_confidence box |} in
        set_detected_answers_marks (detected_answers_marks self ++ [mark])
          (set_detected_indx_marks (detected_indx_marks self ++ [mark]) self)
      else self)
      self in
  let self :=
    match indx_roi_coords self with
    | Some roi =>
        set_detected_indx_marks
          (filter (λ mark, inside roi mark = true) (detected_indx_marks self)) self
    | None => self
    end in
  match answers_roi_coords self with
  | Some roi =>
      set_detected_answers_marks
        (filter (λ mark, inside roi mark = true) (detected_answers_marks self)) self
  | None => self
  end.

(** The dict [marking_outcome] returns; the list under ['scheme'] is given by
    its contents at the time of the return. *)
Inductive Outcome : Type :=
  | SchemeOutcome (scheme : list SchemeEntry)
  | ScriptOutcome (answers : list StudentAnswer) (index_number : string)
      (score : Z) (out_of : Z).

Definition marking_outcome (w : World) (self : McqMarker) : World * McqMarker * Outcome :=
  if is_scheme self then
    (w, self, SchemeOutcome (deref w (mark_scheme self)))
  else
    let '(w, self) := calculate_score w self in
    (w, self, ScriptOutcome (student_answer self) (index_number self) (score self)
                (questions self)).

(** ** The service: [main.process_direct]

    The two collections of the database, with the fields the handler and
    its two helpers read or write. *)

(** The value of an [ObjectId]. *)
Definition oid : Type := string.

(** A document of [db.tests]: its ["scheme"] field, if it has one. *)
Record TestDoc : Type := {
  test_scheme : option (list SchemeEntry)
}.

(** A document of [db.scripts]. *)
Record ScriptDoc : Type := {
  script_test_id : oid;
  script_index_number : string;
  script_score : Z;
  script_answers : list StudentAnswer;
  script_file_id : string
}.

#[global] Instance ScriptDoc_eq_dec : EqDecision ScriptDoc.
Proof. solve_decision. Defined.

Record Database : Type := {
  tests : gmap oid TestDoc;
  scripts : list ScriptDoc
}.

(** The exceptions the handler can meet before and after the stages. *)
Inductive Exception : Type :=
  | InvalidId (oid : string)
  | TypeError
  | KeyError (key : string).

(** What the handler answers: [{"message": message}], or the JSON response
    with status 500 and content [{"error": str(e)}] of its [except] clause. *)
Inductive Response : Type :=
  | Message (message : string)
  | InternalServerError (error : string).

(** [db.scripts.update_one({"test_id": .., "index_number": ..},
    {"$set": script_data}, upsert=True)]: the first document that matches
    the filter takes the fields of [script_data]; when none matches,
    [script_data] is inserted.  The flag tells whether [result.upserted_id]
    is set. *)
Fixpoint update_one_upsert (script_data : ScriptDoc) (scripts : list ScriptDoc)
    : list ScriptDoc * bool :=
  match scripts with
  | [] => ([script_data], true)
  | doc :: rest =>
      if decide (script_test_id doc = script_test_id script_data
                 ∧ script_index_number doc = script_index_number script_data)
      then (script_data :: rest, false)
      else let '(rest, upserted) := update_one_upsert script_data rest in
           (doc :: rest, upserted)
  end.

Section Service.

(** [ObjectId(test_id)] of the [bson] library, [None] when it raises
    [InvalidId]; and [str(e)], the text of an exception. *)
Variable ObjectId : string → option oid.
Variable str : Exception → string.

(** [tests.add_script]; [inl e] when the exception [e] leaves the function
    (an id [ObjectId] rejects, a result without ['index_number']). *)
Definition add_script (db : Database) (test_id : string) (script : Outcome)
    : Exception + Database * string :=
  match ObjectId test_id with
  | None => inl (InvalidId test_id)
  | Some test_oid =>
      match script with
      | ScriptOutcome answers index_number score out_of =>
          let script_data :=
            {| script_test_id := test_oid;
               script_index_number := index_number;
               script_score := score;
               script_answers := answers;
               script_file_id := "" |} in
          let '(scripts, upserted) := update_one_upsert script_data (scripts db) in
          inr ({| tests := tests db; scripts := scripts |},
               if upserted then "Script added successfully"
               else "Script updated successfully")
      | SchemeOutcome _ => inl (KeyError "index_number")
      end
  end.

(** [tests.add_scheme]: an update of the test with that id, if there is
    one. *)
Definition add_scheme (db : Database) (test_id : string) (scheme : Outcome)
    : Exception + Database * string :=
  match ObjectId test_id with
  | None => inl (InvalidId test_id)
  | Some test_oid =>
      match scheme with
      | SchemeOutcome entries =>
          inr ({| tests := alter (λ _, {| test_scheme := Some entries |}) test_oid
                             (tests db);
                  scripts := scripts db |},
               "Scheme added successfully")
      | ScriptOutcome _ _ _ _ => inl (KeyError "scheme")
      end
  end.

(** The [except Exception] clause of the handler: it prints the exception
    and answers 500. *)
Definition internal_server_error (db : Database) (w : World) (e : Exception)
    : Database * World * Response :=
  (db, print (String.append "Error: " (str e)) w, InternalServerError (str e)).

(** The handler.  In script mode the scheme is read from the stored test:
    an id that [ObjectId] rejects, a test that does not exist
    ([None["scheme"]]) and a test without the field all raise before any
    object is built.  Both lists handed to [McqMarker] are new objects. *)
Definition process_direct (db : Database) (w : World) (boxes : list DetectionBox)
    (filename test_id : string) (end_number : Z) (scheme_or_paper : bool)
    : Database * World * Response :=
  let mark_scheme : Exception + list SchemeEntry :=
    if negb scheme_or_paper then
      match ObjectId test_id with
      | None => inl (InvalidId test_id)
      | Some test_oid =>
          match tests db !! test_oid with
          | None => inl TypeError
          | Some test =>
              match test_scheme test with
              | None => inl (KeyError "scheme")
              | Some mark_scheme => inr mark_scheme
              end
          end
      end
    else inr [] in
  match mark_scheme with
  | inl e => internal_server_error db w e
  | inr mark_scheme =>
      let '(mark_scheme, w) := new_list mark_scheme w in
      let scheme :=
        McqMarker_init (String.append "temp_" filename) test_id end_number scheme_or_paper
          (Some mark_scheme) in
      let scheme := start_shading_processing boxes scheme in
      let '(w, scheme) :=
        if scheme_or_paper then (w, scheme) else start_indx_processing w scheme in
      let '(w, scheme) := start_answer_processing w scheme in
      let '(w, _, results) := marking_outcome w scheme in
      let saved :=
        if scheme_or_paper then add_scheme db test_id results
        else add_script db test_id results in
      match saved with
      | inr (db', message) => (db', w, Message message)
      | inl e => internal_server_error db w e
      end
  end.

End Service.

(** ** Concrete runs *)

Definition box (c : Z) (a b c' d : float) : DetectionBox :=
  {| x1 := a; y1 := b; x2 := c'; y2 := d; class_id := c; box_confidence := 0.9%float |}.

(** A sheet with an index block, an answer block and three marks: digit 3 in
    index column 0, option B of question 1, options A and C of question 3. *)
Definition sample_boxes : list DetectionBox :=
  [ box 1 0 0 1000 1000;
    box 2 0 1000 1930 3000;
    box 0 100 360 130 400;
    box 0 220 1090 240 1110;
    box 0 200 1180 210 1190;
    box 0 260 1180 270 1190 ].

Definition sample_answers_roi : ROI := (0, 1000, 1930, 3000)%float.

(** The marks of the sample sheet that lie in its answers ROI. *)
Definition sample_marks : list Mark :=
  detected_answers_marks
    (start_shading_processing sample_boxes (McqMarker_init "key.jpg" "t" 3 true None)).

(** An [ObjectId] constructor for the runs: the strings of 24 hexadecimal
    digits are the ids. *)
Definition hex_object_id (s : string) : option oid :=
  if decide (String.length s = 24%nat
             ∧ Forall (λ c, c ∈ String.list_ascii_of_string "0123456789abcdef")
                 (String.list_ascii_of_string s))
  then Some s else None.

Definition sample_test_id : string := "64c6a2f1e4b0a1b2c3d4e5f6".

(** The text of an exception, for the runs. *)
Definition sample_str (e : Exception) : string :=
  match e with
  | InvalidId oid => String.append oid " is not a valid ObjectId"
  | TypeError => "'NoneType' object is not subscriptable"
  | KeyError key => key
  end.

(** A database that holds one test, with the given scheme, and no script. *)
Definition sample_db (scheme : list SchemeEntry) : Database :=
  {| tests := {[ sample_test_id := {| test_scheme := Some scheme |} ]}; scripts := [] |}.

(** ** Vocabulary of the properties *)

(** The Euclidean distance between two points of the image, evaluated in
    binary64: the square root of the sum of the squares of the two
    coordinate differences. *)
Definition euclidean_distance (p q : float * float) : float :=
  sqrt ((p.1 - q.1) * (p.1 - q.1) + (p.2 - q.2) * (p.2 - q.2))%float.

(** The distance from [mark] to an index anchor / to an answer anchor. *)
Definition digit_distance (mark : Mark) (center : DigitCenter) : float :=
  euclidean_distance (center_x mark, center_y mark) (dc_x center, dc_y center).

Definition bubble_distance (mark : Mark) (center : Z * BubbleCenter) : float :=
  euclidean_distance (center_x mark, center_y mark) (bc_x center.2, bc_y center.2).

(** [a], found at position [i] of [anchors], lies at a distance below [inf]
    that is minimal among the distances that are numbers, and every anchor
    before it is strictly farther. *)
Definition first_minimum {A : Type} (d : A → float) (anchors : list A)
    (i : nat) (a : A) : Prop :=
  anchors !! i = Some a
  ∧ Py.ltb (d a) Py.inf = true
  ∧ (∀ j b, anchors !! j = Some b → is_nan (d b) = false → Py.leb (d a) (d b) = true)
  ∧ (∀ j b, (j < i)%nat → anchors !! j = Some b → is_nan (d b) = false →
       Py.ltb (d a) (d b) = true).

(** No anchor lies at a distance below [inf]. *)
Definition out_of_reach {A : Type} (d : A → float) (anchors : list A) : Prop :=
  ∀ b, b ∈ anchors → Py.ltb (d b) Py.inf = false.

(** The anchors of the answer grid in the order the two loops visit them. *)
Definition scan_order (bubble_centers_by_q : OrderedDict.t (list BubbleCenter))
    : list (Z * BubbleCenter) :=
  '(q_num, centers) ← OrderedDict.items bubble_centers_by_q;
  (λ center, (q_num, center)) <$> centers.

(** The label [mark] contributes to index column [col], if any. *)
Definition indx_label_for (anchors : list DigitCenter) (col : nat) (mark : Mark)
    : option string :=
  a ← closest_digit_center mark anchors;
  if decide (dc_col a = col) then Some (dc_digit a) else None.

(** The label [mark] contributes to question [q_num], if any. *)
Definition answer_label_for (d : OrderedDict.t (list BubbleCenter)) (q_num : Z)
    (mark : Mark) : option string :=
  match closest_bubble mark d with
  | (_, Some center, Some q) => if decide (q = q_num) then Some (bc_option center) else None
  | _ => None
  end.

(** The disambiguation rule in the words of the specification: nothing
    resolved to the slot gives ['X'], labels that all agree give that label,
    two labels that differ give ['M']. *)
Definition slot_rule (labels : list string) (outcome : string) : Prop :=
  (labels = [] → outcome = "X")
  ∧ (∀ x, x ∈ labels → (∀ y, y ∈ labels → y = x) → outcome = x)
  ∧ (∀ x y, x ∈ labels → y ∈ labels → x ≠ y → outcome = "M").

(** The rational number a finite float stands for ([0] for the others). *)
Definition exact_value (x : float) : Q :=
  match Prim2SF x with
  | S754_finite s m e => ((if s then -1 else 1) * inject_Z (Z.pos m) * 2 ^ e)%Q
  | _ => 0%Q
  end.

Module AnswerGridLayout.

Import AnswerGrid.

(** The value of [current_y_ratio] when row [r] (counted from 0 within a
    column) is laid out: every row advances it by [segment_height_ratio],
    and completing a group of [questions_per_group] rows advances it by
    [gap_height_ratio] on top. *)
Fixpoint row_offset (r : nat) : float :=
  match r with
  | O => 0
  | S r' =>
      let y := (row_offset r' + segment_height_ratio)%float in
      if decide (S r' mod questions_per_group = 0)%nat
      then (y + gap_height_ratio)%float else y
  end.

(** The five option anchors of one question row. *)
Definition row_centers (x_start y_start : float) (col_start_px : Z)
    (option_width_px : float) (q_center_y_px : Z) : list BubbleCenter :=
  (λ option_idx,
     {| bc_x := (Py.float col_start_px
                 + (Py.float (Z.of_nat option_idx) * option_width_px)
                 + (option_width_px / 2) + x_start)%float;
        bc_y := (Py.float q_center_y_px + y_start)%float;
        bc_option := default "" (options !! option_idx) |})
  <$> seq 0 options_per_question.

(** Row [r] of the column band [(col_start_px, col_end_px)]. *)
Definition grid_row (x_start y_start roi_height : float) (col_start_px col_end_px : Z)
    (r : nat) : list BubbleCenter :=
  row_centers x_start y_start col_start_px
    (Py.float (col_end_px - col_start_px) / Py.float (Z.of_nat options_per_question))
    (Py.int ((row_offset r + segment_height_ratio / 2) * roi_height)).

(** The dict of [_calculate_bubble_centers], written out: column by
    column, row by row. *)
Definition expected_grid (x_start y_start roi_width roi_height : float)
    : list (Z * list BubbleCenter) :=
  k ← seq 0 5;
  match column_boundaries roi_width !! k with
  | Some (_, (col_start_px, col_end_px)) =>
      (λ r, (Z.of_nat (questions_per_column * k + r + 1),
             grid_row x_start y_start roi_height col_start_px col_end_px r))
      <$> seq 0 questions_per_column
  | None => []
  end.

(** Where the specification puts the top of row [r], as a fraction of the
    height: [r] rows of [(1 - 7 * 0.022) / 40] and one gap of [0.022] for
    every group of five rows above it. *)
Definition ideal_row_offset (r : nat) : Q :=
  (inject_Z (Z.of_nat r) * ((1 - 7 * 0.022) / 40)
   + inject_Z (Z.of_nat (r / 5)) * 0.022)%Q.

End AnswerGridLayout.

(** The anchor of column [col_idx] and digit [digit], as the loop body
    builds it. *)
Definition digit_center (x_start y_start column_width_segment
    digit_row_height_segment : float) (col_idx digit : nat) : DigitCenter :=
  {| dc_x := (x_start + (Py.float (Z.of_nat col_idx) * column_width_segment)
              + (column_width_segment / 2))%float;
     dc_y := (y_start + (Py.float (Z.of_nat digit) * digit_row_height_segment)
              + (digit_row_height_segment / 2))%float;
     dc_col := col_idx;
     dc_digit := Py.str digit |}.

(** The test of the scoring loop, as a proposition. *)
Definition earns_mark (a : StudentAnswer) : Prop :=
  answer a = correct_answer a ∧ answer a ≠ "X" ∧ answer a ≠ "M".

#[global] Instance earns_mark_dec (a : StudentAnswer) : Decision (earns_mark a).
Proof. unfold earns_mark. apply _. Defined.

(** [marks_per_question] as [start_answer_processing] computes it from the
    detected ROI and the marks. *)
Definition answer_marks (roi : ROI) (marks : list Mark) : gmap Z (list string) :=
  let '(x_start, y_start, x_end, y_end) := answers_calc_rect roi in
  map_answer_marks
    (AnswerGrid._calculate_bubble_centers x_start y_start
       (x_end - x_start) (y_end - y_start)).1.1.1
    marks.

(** A script sheet graded against a scheme that holds two entries, the
    first of which carries a question number that is not its position. *)
Definition short_scheme : list SchemeEntry :=
  [ {| se_answer_to := 7; se_answer := "B" |};
    {| se_answer_to := 2; se_answer := "D" |} ].

Definition script_run : World * McqMarker :=
  let '(l, w) := new_list short_scheme module_loaded in
  let self := McqMarker_init "script.jpg" "t" 3 false (Some l) in
  (w, start_shading_processing sample_boxes self).

(** A detection with a proper index ROI and an answers ROI of no extent. *)
Definition flat_answers_roi_boxes : list DetectionBox :=
  [ box 1 0 0 1000 1000; box 2 100 1100 100 1100 ].

(** The fields that detection does not write. *)
Definition same_session (a b : McqMarker) : Prop :=
  is_scheme a = is_scheme b ∧ questions a = questions b
  ∧ index_number a = index_number b ∧ student_answer a = student_answer b
  ∧ mark_scheme a = mark_scheme b ∧ score a = score b.

(** A float that is not a NaN and carries the sign [sx]; [sign_clear]: with
    the sign bit clear. *)
Definition signed (sx : bool) (x : spec_float) : Prop :=
  match x with
  | S754_nan => False
  | S754_zero s | S754_infinity s | S754_finite s _ _ => s = sx
  end.

Definition sign_clear (x : spec_float) : Prop := signed false x.

(** Case analysis on the comparisons of exponents and mantissas. *)
Ltac compare_cases :=
  change (Pos.compare_cont Eq ?a ?b) with (Pos.compare a b);
  repeat match goal with
  | |- context [Z.compare ?a ?b] => destruct (Z.compare_spec a b)
  | H : context [Z.compare ?a ?b] |- _ => destruct (Z.compare_spec a b)
  | |- context [Pos.compare ?a ?b] => destruct (Pos.compare_spec a b)
  | H : context [Pos.compare ?a ?b] |- _ => destruct (Pos.compare_spec a b)
  end; cbn in *; try done; try lia.
(** *** Detection, alphabets and sheets *)

(** [(x1, y1, x2, y2)] of a box. *)
Definition box_roi (b : DetectionBox) : ROI := (x1 b, y1 b, x2 b, y2 b).

(** The mark a class-0 box stands for: its centre and confidence. *)
Definition box_mark (b : DetectionBox) : Mark :=
  {| center_x := ((x1 b + x2 b) / 2)%float; center_y := ((y1 b + y2 b) / 2)%float;
     confidence := box_confidence b |}.

(** The ROI a run over [boxes] ends with: the last box of class [c], or what
    was there before. *)
Definition last_roi (c : Z) (boxes : list DetectionBox) (before : option ROI)
    : option ROI :=
  match last (filter (λ b, class_id b = c) boxes) with
  | Some b => Some (box_roi b)
  | None => before
  end.

(** The marks of [boxes], in detector order. *)
Definition box_marks (boxes : list DetectionBox) : list Mark :=
  box_mark <$> filter (λ b, class_id b = 0%Z) boxes.

(** The marks kept for a ROI: all of them when there is no ROI. *)
Definition marks_in (roi : option ROI) (marks : list Mark) : list Mark :=
  match roi with
  | Some roi => filter (λ mark, inside roi mark = true) marks
  | None => marks
  end.


Definition index_alphabet : list string :=
  (Py.str <$> seq 0 num_digits_per_column) ++ ["X"; "M"].

(** The entries the answer stage produces for questions [1..n] from the
    boxes of one sheet: nothing when no answers ROI was detected. *)
Definition sheet_answers (boxes : list DetectionBox) (n : Z) : list (Z * string) :=
  match last_roi 2 boxes None with
  | Some roi =>
      (λ q_num,
         (q_num, detected_answer (answer_marks roi (marks_in (Some roi) (box_marks boxes)))
                   q_num))
      <$> seqZ 1 n
  | None => []
  end.

(** The scheme entries made of them. *)
Definition sheet_scheme (boxes : list DetectionBox) (n : Z) : list SchemeEntry :=
  (λ qa, {| se_answer_to := qa.1; se_answer := qa.2 |}) <$> sheet_answers boxes n.

(** The answers of a script result: the entries of the sheet, each paired
    with what the scheme says at its position. *)
Definition graded_answers (boxes : list DetectionBox) (n : Z)
    (scheme : list SchemeEntry) : list StudentAnswer :=
  (λ qa, {| answer_to := qa.1; answer := qa.2;
            correct_answer := lookup_correct_answer scheme qa.1 |})
  <$> sheet_answers boxes n.

(** The index number the index stage reads off the boxes of one sheet:
    empty when the stage stops at one of its two errors. *)
Definition sheet_index_number (boxes : list DetectionBox) : string :=
  match last_roi 1 boxes None with
  | Some roi =>
      let '(x_start, y_start, x_end, y_end) := indx_calc_rect roi in
      let roi_height := (y_end - y_start)%float in
      let roi_width := (x_end - x_start)%float in
      if Py.leb roi_height 0 || Py.leb roi_width 0 then ""
      else
        String.concat ""
          (index_digits
             (map_indx_marks
                (digit_centers x_start y_start
                   (roi_width / Py.float (Z.of_nat num_columns))
                   (roi_height / Py.float (Z.of_nat num_digits_per_column)))
                (marks_in (Some roi) (box_marks boxes))))
  | None => ""
  end.

(** The script document the handler saves for one sheet. *)
Definition sheet_script (test_oid : oid) (boxes : list DetectionBox) (n : Z)
    (scheme : list SchemeEntry) : ScriptDoc :=
  {| script_test_id := test_oid;
     script_index_number := sheet_index_number boxes;
     script_score :=
       Z.of_nat (length (filter earns_mark (graded_answers boxes n scheme)));
     script_answers := graded_answers boxes n scheme;
     script_file_id := "" |}.

(** The line the index stage prints on a sheet it stops on. *)
Definition indx_roi_errors (boxes : list DetectionBox) : list string :=
  match last_roi 1 boxes None with
  | Some roi =>
      let '(x_start, y_start, x_end, y_end) := indx_calc_rect roi in
      if Py.leb (y_end - y_start) 0 || Py.leb (x_end - x_start) 0
      then ["Error: Detected Index ROI dimensions are invalid."]
      else []
  | None => ["Error: Index ROI coordinates not detected by the model."]
  end.

(** A script of the same test with the same index number. *)
Definition same_script (a b : ScriptDoc) : Prop :=
  script_test_id a = script_test_id b ∧ script_index_number a = script_index_number b.

(** The line the answer stage prints on a sheet without answers ROI. *)
Definition answers_roi_errors (boxes : list DetectionBox) : list string :=
  match last_roi 2 boxes None with
  | Some _ => []
  | None => ["Error: Answers ROI coordinates not detected by the model."]
  end.


#[global] Instance same_script_dec (a b : ScriptDoc) : Decision (same_script a b).
Proof. unfold same_script. apply _. Defined.

(** * Properties *)

(** ** Loops *)

Lemma for_each_snoc {St A : Type} (body : St → A → St) (xs : list A) (x : A) (s : St) :
  Py.for_each (xs ++ [x]) body s = body (Py.for_each xs body s) x.
Proof. unfold Py.for_each. by rewrite fold_left_app. Qed.

Lemma for_each_app {St A : Type} (body : St → A → St) (xs ys : list A) (s : St) :
  Py.for_each (xs ++ ys) body s = Py.for_each ys body (Py.for_each xs body s).
Proof. unfold Py.for_each. by rewrite fold_left_app. Qed.

(** An invariant of the loop state holds after the loop. *)
Lemma for_each_invariant {St A : Type} (P : St → Prop) (body : St → A → St)
    (xs : list A) (s : St) :
  P s → (∀ s x, x ∈ xs → P s → P (body s x)) → P (Py.for_each xs body s).
Proof.
  revert s. induction xs as [|x xs IH]; intros s Hs Hstep; [done|].
  apply IH.
  - apply Hstep; [left|done].
  - intros s' y Hy. apply Hstep. by right.
Qed.

(** A loop that appends one element per iteration. *)
Lemma for_range_collect {A : Type} (f : nat → A) (n : nat) (acc : list A) :
  Py.for_range n (λ acc i, acc ++ [f i]) acc = acc ++ (f <$> seq 0 n).
Proof.
  unfold Py.for_range. generalize 0%nat. revert acc.
  induction n as [|n IH]; intros acc k; simpl.
  - by rewrite app_nil_r.
  - rewrite IH. by rewrite <- app_assoc.
Qed.

(** ** The order of binary64 numbers

    [<] and [<=] compare two floats through their sign, exponent and
    mantissa and are false as soon as one side is a NaN. *)

Lemma SFcompare_lt_trans (x y z : spec_float) :
  SFcompare x y = Some Lt → SFcompare y z = Some Lt → SFcompare x z = Some Lt.
Proof.
  destruct x as [[]|[]| |[] mx ex], y as [[]|[]| |[] my ey], z as [[]|[]| |[] mz ez];
    cbn; try done; compare_cases.
Qed.

Lemma SFcompare_eq_lt_trans (x y z : spec_float) :
  SFcompare x y = Some Eq → SFcompare y z = Some Lt → SFcompare x z = Some Lt.
Proof.
  destruct x as [[]|[]| |[] mx ex], y as [[]|[]| |[] my ey], z as [[]|[]| |[] mz ez];
    cbn; try done; compare_cases.
Qed.

Lemma SFcompare_lt_eq_trans (x y z : spec_float) :
  SFcompare x y = Some Lt → SFcompare y z = Some Eq → SFcompare x z = Some Lt.
Proof.
  destruct x as [[]|[]| |[] mx ex], y as [[]|[]| |[] my ey], z as [[]|[]| |[] mz ez];
    cbn; try done; compare_cases.
Qed.

Lemma SFcompare_antisym (x y : spec_float) :
  SFcompare y x = option_map CompOpp (SFcompare x y).
Proof.
  destruct x as [[]|[]| |[] mx ex], y as [[]|[]| |[] my ey];
    cbn; try done; compare_cases.
Qed.

Lemma SFcompare_refl (x : spec_float) :
  x ≠ S754_nan → SFcompare x x = Some Eq.
Proof.
  destruct x as [[]|[]| |[] mx ex]; cbn; try done; intros _; compare_cases.
Qed.

Lemma SFcompare_None (x y : spec_float) :
  SFcompare x y = None → x = S754_nan ∨ y = S754_nan.
Proof.
  destruct x as [[]|[]| |[] mx ex], y as [[]|[]| |[] my ey]; cbn; auto; discriminate.
Qed.

Lemma is_nan_spec (x : float) : is_nan x = true ↔ Prim2SF x = S754_nan.
Proof.
  unfold is_nan. rewrite FloatAxioms.eqb_spec. unfold SFeqb.
  destruct (Prim2SF x) as [s|s| |s m e]; [| |done|];
    by rewrite SFcompare_refl.
Qed.

Lemma not_nan_spec (x : float) : is_nan x = false ↔ Prim2SF x ≠ S754_nan.
Proof. rewrite <- is_nan_spec. by destruct (is_nan x). Qed.

Lemma ltb_trans (x y z : float) :
  Py.ltb x y = true → Py.ltb y z = true → Py.ltb x z = true.
Proof.
  unfold Py.ltb. rewrite !FloatAxioms.ltb_spec. unfold SFltb.
  destruct (SFcompare (Prim2SF x) (Prim2SF y)) as [[]|] eqn:Hxy; try done.
  destruct (SFcompare (Prim2SF y) (Prim2SF z)) as [[]|] eqn:Hyz; try done.
  by rewrite (SFcompare_lt_trans _ _ _ Hxy Hyz).
Qed.

Lemma leb_ltb_trans (x y z : float) :
  Py.leb x y = true → Py.ltb y z = true → Py.ltb x z = true.
Proof.
  unfold Py.ltb, Py.leb. rewrite FloatAxioms.leb_spec, !FloatAxioms.ltb_spec. unfold SFleb, SFltb.
  destruct (SFcompare (Prim2SF x) (Prim2SF y)) as [[]|] eqn:Hxy; try done;
  destruct (SFcompare (Prim2SF y) (Prim2SF z)) as [[]|] eqn:Hyz; try done.
  - by rewrite (SFcompare_eq_lt_trans _ _ _ Hxy Hyz).
  - by rewrite (SFcompare_lt_trans _ _ _ Hxy Hyz).
Qed.

Lemma ltb_leb_trans (x y z : float) :
  Py.ltb x y = true → Py.leb y z = true → Py.ltb x z = true.
Proof.
  unfold Py.ltb, Py.leb. rewrite FloatAxioms.leb_spec, !FloatAxioms.ltb_spec.
  unfold SFleb, SFltb.
  destruct (SFcompare (Prim2SF x) (Prim2SF y)) as [[]|] eqn:Hxy; try done;
  destruct (SFcompare (Prim2SF y) (Prim2SF z)) as [[]|] eqn:Hyz; try done.
  - by rewrite (SFcompare_lt_eq_trans _ _ _ Hxy Hyz).
  - by rewrite (SFcompare_lt_trans _ _ _ Hxy Hyz).
Qed.

Lemma ltb_leb (x y : float) : Py.ltb x y = true → Py.leb x y = true.
Proof.
  unfold Py.ltb, Py.leb. rewrite FloatAxioms.leb_spec, FloatAxioms.ltb_spec. unfold SFleb, SFltb.
  by destruct (SFcompare (Prim2SF x) (Prim2SF y)) as [[]|].
Qed.

Lemma ltb_not_nan (x y : float) :
  Py.ltb x y = true → is_nan x = false ∧ is_nan y = false.
Proof.
  unfold Py.ltb. rewrite FloatAxioms.ltb_spec, !not_nan_spec. unfold SFltb.
  destruct (SFcompare (Prim2SF x) (Prim2SF y)) as [c|] eqn:Hxy; [|done].
  intros _. split; intros Hn; rewrite Hn in Hxy;
    [done|by destruct (Prim2SF x) as [[]|[]| |[]]].
Qed.

(** Numbers are totally ordered. *)
Lemma ltb_false_leb (x y : float) :
  is_nan x = false → is_nan y = false → Py.ltb y x = false → Py.leb x y = true.
Proof.
  unfold Py.ltb, Py.leb. rewrite !not_nan_spec, FloatAxioms.ltb_spec, FloatAxioms.leb_spec. unfold SFltb, SFleb.
  intros Hx Hy. rewrite (SFcompare_antisym (Prim2SF x) (Prim2SF y)).
  destruct (SFcompare (Prim2SF x) (Prim2SF y)) as [[]|] eqn:Hxy; try done.
  apply SFcompare_None in Hxy. tauto.
Qed.

Lemma leb_false_ltb (x y : float) :
  is_nan x = false → is_nan y = false → Py.leb y x = false → Py.ltb x y = true.
Proof.
  unfold Py.ltb, Py.leb. rewrite !not_nan_spec, FloatAxioms.ltb_spec, FloatAxioms.leb_spec. unfold SFltb, SFleb.
  intros Hx Hy. rewrite (SFcompare_antisym (Prim2SF x) (Prim2SF y)).
  destruct (SFcompare (Prim2SF x) (Prim2SF y)) as [[]|] eqn:Hxy; try done.
  apply SFcompare_None in Hxy. tauto.
Qed.

Lemma leb_ltb_false (x y : float) : Py.leb x y = true → Py.ltb y x = false.
Proof.
  unfold Py.ltb, Py.leb. rewrite FloatAxioms.ltb_spec, FloatAxioms.leb_spec. unfold SFltb, SFleb.
  rewrite (SFcompare_antisym (Prim2SF x) (Prim2SF y)).
  by destruct (SFcompare (Prim2SF x) (Prim2SF y)) as [[]|].
Qed.

Lemma ltb_leb_false (x y : float) : Py.ltb x y = true → Py.leb y x = false.
Proof.
  unfold Py.ltb, Py.leb. rewrite FloatAxioms.ltb_spec, FloatAxioms.leb_spec. unfold SFltb, SFleb.
  rewrite (SFcompare_antisym (Prim2SF x) (Prim2SF y)).
  by destruct (SFcompare (Prim2SF x) (Prim2SF y)) as [[]|].
Qed.

(** Whatever is below some float is below [inf]. *)
Lemma ltb_inf (x y : float) : Py.ltb x y = true → Py.ltb x Py.inf = true.
Proof.
  unfold Py.ltb, Py.inf. rewrite !FloatAxioms.ltb_spec.
  change (Prim2SF infinity) with (S754_infinity false). unfold SFltb.
  destruct (Prim2SF x) as [[]|[]| |[] mx ex], (Prim2SF y) as [[]|[]| |[] my ey]; cbn; done.
Qed.

Lemma leb_refl (x : float) : is_nan x = false → Py.leb x x = true.
Proof.
  unfold Py.leb. rewrite not_nan_spec, FloatAxioms.leb_spec. unfold SFleb. intros Hx.
  by rewrite SFcompare_refl.
Qed.

(** ** [list(set(...))] *)

Lemma list_set_nil_iff (xs : list string) : Py.list_set xs = [] ↔ xs = [].
Proof.
  unfold Py.list_set. rewrite elements_empty_iff. split.
  - intros H. destruct xs as [|x xs]; [done|].
    exfalso. apply (not_elem_of_empty (C:=gset string) x).
    rewrite <- H. apply elem_of_list_to_set. left.
  - by intros ->.
Qed.

Lemma list_set_elem_of (xs : list string) (x : string) : x ∈ Py.list_set xs ↔ x ∈ xs.
Proof. unfold Py.list_set. by rewrite elem_of_elements, elem_of_list_to_set. Qed.

Lemma list_set_NoDup (xs : list string) : NoDup (Py.list_set xs).
Proof. unfold Py.list_set. apply NoDup_elements. Qed.

(** All labels agree: the set has one element. *)
Lemma list_set_agree (xs : list string) (x : string) :
  x ∈ xs → (∀ y, y ∈ xs → y = x) → Py.list_set xs = [x].
Proof.
  intros Hx Hall. unfold Py.list_set.
  assert ((list_to_set xs : gset string) = {[ x ]}) as -> by set_solver.
  apply elements_singleton.
Qed.

(** Two different labels: the set has at least two elements. *)
Lemma list_set_conflict (xs : list string) (x y : string) :
  x ∈ xs → y ∈ xs → x ≠ y → length (Py.list_set xs) ≠ 1%nat.
Proof.
  intros Hx Hy Hne Hlen.
  apply list_set_elem_of in Hx, Hy.
  destruct (Py.list_set xs) as [|z [|z' zs]]; simplify_eq/=.
  apply list_elem_of_singleton in Hx, Hy. congruence.
Qed.

Lemma list_set_perm (xs ys : list string) : xs ≡ₚ ys → Py.list_set xs = Py.list_set ys.
Proof.
  intros Hp. unfold Py.list_set. f_equal. apply set_eq. intros x.
  by rewrite !elem_of_list_to_set, Hp.
Qed.

Lemma list_set_same_labels (xs ys : list string) :
  (∀ x, x ∈ xs ↔ x ∈ ys) → Py.list_set xs = Py.list_set ys.
Proof.
  intros H. unfold Py.list_set. f_equal. apply set_eq. intros x.
  by rewrite !elem_of_list_to_set.
Qed.

(** ** The nearest-anchor scan *)

Section FirstMinimum.

Context {St A : Type}.
Variable d : A → float.
Variable key : St → float.
Variable mk : A → St.
Variable step : St → A → St.

Hypothesis step_eq : ∀ s a, step s a = if Py.ltb (d a) (key s) then mk a else s.
Hypothesis key_mk : ∀ a, key (mk a) = d a.

(** The scan [if dist < min_dist: ...] started at [float('inf')] ends on
    the first anchor of minimum distance, or where it started when no
    distance is below [inf]. *)
Lemma scan_first_minimum (anchors : list A) (s0 : St) :
  key s0 = Py.inf →
  (Py.for_each anchors step s0 = s0 ∧ out_of_reach d anchors)
  ∨ ∃ i a, Py.for_each anchors step s0 = mk a ∧ first_minimum d anchors i a.
Proof.
  intros Hs0. induction anchors as [|x l IH] using rev_ind.
  { left. split; [done|]. intros b Hb. by apply elem_of_nil in Hb. }
  rewrite for_each_snoc.
  destruct IH as [[Hfold Hout]|(i & a & Hfold & Hi & Hfin & Hmin & Hfirst)];
    rewrite Hfold, step_eq.
  - rewrite Hs0. destruct (Py.ltb (d x) Py.inf) eqn:Hx.
    + right. exists (length l), x. split; [done|].
      destruct (ltb_not_nan _ _ Hx) as [Hnx _].
      assert (∀ b, b ∈ l → is_nan (d b) = false → Py.ltb (d x) (d b) = true) as Hlt.
      { intros b Hb Hnb. apply leb_false_ltb; [done..|].
        destruct (Py.leb (d b) (d x)) eqn:Hle; [|done].
        pose proof (Hout b Hb) as Hfar.
        by rewrite (leb_ltb_trans _ _ _ Hle Hx) in Hfar. }
      split; [by apply list_lookup_middle|]. split; [done|]. split.
      * intros j b Hb Hnb. apply lookup_app_Some in Hb as [Hb|[_ Hb]].
        -- apply ltb_leb, Hlt; [|done]. by eapply list_elem_of_lookup_2.
        -- apply list_lookup_singleton_Some in Hb as [_ <-]. by apply leb_refl.
      * intros j b Hj Hb Hnb. rewrite lookup_app_l in Hb by done.
        apply Hlt; [|done]. by eapply list_elem_of_lookup_2.
    + left. split; [done|]. intros b Hb.
      apply elem_of_app in Hb as [Hb|Hb]; [by apply Hout|].
      by apply list_elem_of_singleton in Hb as ->.
  - rewrite key_mk. right. destruct (Py.ltb (d x) (d a)) eqn:Hx.
    + exists (length l), x. split; [done|].
      destruct (ltb_not_nan _ _ Hx) as [Hnx _].
      assert (∀ j b, l !! j = Some b → is_nan (d b) = false → Py.ltb (d x) (d b) = true)
        as Hlt.
      { intros j b Hb Hnb. eapply ltb_leb_trans; [exact Hx|]. by eapply Hmin. }
      split; [by apply list_lookup_middle|]. split; [by eapply ltb_inf|]. split.
      * intros j b Hb Hnb. apply lookup_app_Some in Hb as [Hb|[_ Hb]].
        -- apply ltb_leb. by eapply Hlt.
        -- apply list_lookup_singleton_Some in Hb as [_ <-]. by apply leb_refl.
      * intros j b Hj Hb Hnb. rewrite lookup_app_l in Hb by done. by eapply Hlt.
    + exists i, a. split; [done|].
      destruct (ltb_not_nan _ _ Hfin) as [Hna _].
      split; [by apply lookup_app_l_Some|]. split; [done|]. split.
      * intros j b Hb Hnb. apply lookup_app_Some in Hb as [Hb|[_ Hb]].
        -- by eapply Hmin.
        -- apply list_lookup_singleton_Some in Hb as [_ <-]. by apply ltb_false_leb.
      * intros j b Hj Hb Hnb. apply lookup_lt_Some in Hi.
        rewrite lookup_app_l in Hb by lia. by eapply Hfirst.
Qed.

End FirstMinimum.

Lemma closest_digit_center_first_minimum (mark : Mark) (anchors : list DigitCenter) :
  (closest_digit_center mark anchors = None ∧ out_of_reach (digit_distance mark) anchors)
  ∨ ∃ i a, closest_digit_center mark anchors = Some a
           ∧ first_minimum (digit_distance mark) anchors i a.
Proof.
  pose proof (scan_first_minimum (digit_distance mark)
    fst (λ c, (digit_distance mark c, Some c))
    (λ '(min_dist, closest_digit_center) center,
       let dist :=
         np_sqrt (Py.pow2 (center_x mark - dc_x center)
                  + Py.pow2 (center_y mark - dc_y center))%float in
       if Py.ltb dist min_dist then (dist, Some center)
       else (min_dist, closest_digit_center))) as Hscan.
  specialize (Hscan ltac:(by intros [??] ?) ltac:(done) anchors (Py.inf, None) eq_refl).
  destruct Hscan as [[Hscan Hout]|(i & a & Hscan & Hmin)].
  - left. split; [exact (f_equal snd Hscan)|done].
  - right. exists i, a. split; [exact (f_equal snd Hscan)|done].
Qed.

Lemma closest_bubble_flat (mark : Mark) (d : OrderedDict.t (list BubbleCenter)) (st : Scan) :
  Py.for_each (OrderedDict.items d)
    (λ st '(q_num, centers), Py.for_each centers (scan_center mark q_num) st) st
  = Py.for_each (scan_order d) (λ st qc, scan_center mark qc.1 st qc.2) st.
Proof.
  revert st. induction d as [|[q cs] d IH]; intros st; [done|].
  unfold scan_order, OrderedDict.items in *. simpl.
  rewrite for_each_app. unfold Py.for_each in *. simpl. rewrite IH. f_equal.
  clear. revert st. induction cs as [|c cs IH]; intros st; [done|]. simpl. by rewrite IH.
Qed.

Lemma closest_bubble_first_minimum (mark : Mark) (d : OrderedDict.t (list BubbleCenter)) :
  (closest_bubble mark d = (Py.inf, None, None)
   ∧ out_of_reach (bubble_distance mark) (scan_order d))
  ∨ ∃ i q_num center,
      closest_bubble mark d = (bubble_distance mark (q_num, center), Some center, Some q_num)
      ∧ first_minimum (bubble_distance mark) (scan_order d) i (q_num, center).
Proof.
  unfold closest_bubble. rewrite closest_bubble_flat.
  pose proof (scan_first_minimum (bubble_distance mark)
    (λ st : Scan, st.1.1) (λ c, (bubble_distance mark c, Some c.2, Some c.1))
    (λ st qc, scan_center mark qc.1 st qc.2)) as Hscan.
  specialize (Hscan ltac:(by intros [[??]?] [??]) ltac:(done) (scan_order d)
                (Py.inf, None, None) eq_refl).
  destruct Hscan as [[Hscan Hout]|(i & [q c] & Hscan & Hmin)].
  - by left.
  - right. by exists i, q, c.
Qed.

(** ** Grouping the resolved labels by slot *)

Lemma map_indx_marks_length (anchors : list DigitCenter) (marks : list Mark) :
  length (map_indx_marks anchors marks) = num_columns.
Proof.
  unfold map_indx_marks. apply for_each_invariant.
  - apply length_replicate.
  - intros mpc m _ Hlen. destruct (closest_digit_center m anchors); [|done].
    by rewrite length_alter.
Qed.

Lemma map_indx_marks_snoc (anchors : list DigitCenter) (marks : list Mark) (m : Mark) :
  map_indx_marks anchors (marks ++ [m]) =
    match closest_digit_center m anchors with
    | Some closest =>
        alter (λ col, col ++ [dc_digit closest]) (dc_col closest)
          (map_indx_marks anchors marks)
    | None => map_indx_marks anchors marks
    end.
Proof. unfold map_indx_marks. by rewrite for_each_snoc. Qed.

(** Column [col] holds, in mark order, the digits of the marks whose nearest
    anchor lies in that column. *)
Lemma map_indx_marks_lookup (anchors : list DigitCenter) (marks : list Mark) (col : nat) :
  (col < num_columns)%nat →
  map_indx_marks anchors marks !! col = Some (omap (indx_label_for anchors col) marks).
Proof.
  intros Hcol. induction marks as [|m marks IH] using rev_ind.
  - by apply lookup_replicate_2.
  - rewrite map_indx_marks_snoc, omap_app.
    unfold indx_label_for at 2. cbn [omap list_omap].
    destruct (closest_digit_center m anchors) as [a|]; cbn [mbind option_bind].
    + destruct (decide (dc_col a = col)) as [Heq|Hne].
      * rewrite Heq, list_lookup_alter_eq, IH. done.
      * rewrite list_lookup_alter_ne by done. by rewrite IH, app_nil_r.
    + by rewrite IH, app_nil_r.
Qed.

Lemma map_answer_marks_snoc (d : OrderedDict.t (list BubbleCenter))
    (marks : list Mark) (m : Mark) :
  map_answer_marks d (marks ++ [m]) =
    match closest_bubble m d with
    | (_, Some closest_bubble_center, Some closest_q_num) =>
        alter (λ l, l ++ [bc_option closest_bubble_center]) closest_q_num
          (if decide (is_Some (map_answer_marks d marks !! closest_q_num))
           then map_answer_marks d marks
           else <[ closest_q_num := [] ]> (map_answer_marks d marks))
    | _ => map_answer_marks d marks
    end.
Proof. unfold map_answer_marks. by rewrite for_each_snoc. Qed.

(** Question [q_num] is a key exactly when some mark resolved to it, and then
    holds, in mark order, the options of the marks that did. *)
Lemma map_answer_marks_lookup (d : OrderedDict.t (list BubbleCenter))
    (marks : list Mark) (q_num : Z) :
  map_answer_marks d marks !! q_num =
    match omap (answer_label_for d q_num) marks with
    | [] => None
    | labels => Some labels
    end.
Proof.
  induction marks as [|m marks IH] using rev_ind; [done|].
  rewrite map_answer_marks_snoc, omap_app.
  unfold answer_label_for at 2. cbn [omap list_omap].
  destruct (closest_bubble m d) as [[dist [c|]] [q|]];
    rewrite ?app_nil_r; try exact IH.
  destruct (decide (q = q_num)) as [->|Hne].
  - rewrite lookup_alter_eq. case_decide as Hin.
    + destruct Hin as [l Hl]. rewrite Hl in *. simpl.
      destruct (omap _ marks) as [|x xs]; by simplify_eq/=.
    + apply eq_None_not_Some in Hin. rewrite Hin in IH.
      rewrite lookup_insert_eq. simpl.
      destruct (omap _ marks) as [|x xs]; by simplify_eq/=.
  - rewrite lookup_alter_ne by done. rewrite app_nil_r.
    case_decide; [done|]. by rewrite lookup_insert_ne.
Qed.

Lemma map_answer_marks_nonempty (d : OrderedDict.t (list BubbleCenter))
    (marks : list Mark) (q_num : Z) :
  map_answer_marks d marks !! q_num ≠ Some [].
Proof. rewrite map_answer_marks_lookup. by destruct (omap _ marks). Qed.

(** The labels resolved to a question: the dict entry, or nothing. *)
Lemma map_answer_marks_labels (d : OrderedDict.t (list BubbleCenter))
    (marks : list Mark) (q_num : Z) :
  default [] (map_answer_marks d marks !! q_num) = omap (answer_label_for d q_num) marks.
Proof. rewrite map_answer_marks_lookup. by destruct (omap _ marks). Qed.

(** ** Slot disambiguation *)

(** What both loops do once the labels of the slot are at hand. *)
Lemma unique_or_conflict (labels : list string) (outcome : string) :
  labels ≠ [] →
  outcome = (let unique := Py.list_set labels in
             if decide (length unique = 1%nat) then default "M" (unique !! 0%nat)
             else "M") →
  slot_rule labels outcome.
Proof.
  intros Hne ->. split; [done|split].
  - intros x Hx Hall. cbv zeta. by rewrite (list_set_agree labels x).
  - intros x y Hx Hy Hxy. cbv zeta.
    pose proof (list_set_conflict labels x y Hx Hy Hxy). by case_decide.
Qed.

Lemma index_digit_rule (marks_in_col : list string) :
  slot_rule marks_in_col (index_digit marks_in_col).
Proof.
  destruct marks_in_col as [|l ls].
  - split; [done|split].
    + intros x Hx. by apply elem_of_nil in Hx.
    + intros x y Hx. by apply elem_of_nil in Hx.
  - by apply unique_or_conflict.
Qed.

Lemma detected_answer_rule (marks_per_question : gmap Z (list string)) (q_num : Z) :
  marks_per_question !! q_num ≠ Some [] →
  slot_rule (default [] (marks_per_question !! q_num))
    (detected_answer marks_per_question q_num).
Proof.
  intros Hne. unfold detected_answer.
  destruct (marks_per_question !! q_num) as [labels|]; simpl.
  - apply unique_or_conflict; [congruence|done].
  - split; [done|split].
    + intros x Hx. by apply elem_of_nil in Hx.
    + intros x y Hx. by apply elem_of_nil in Hx.
Qed.

(** The rule leaves no freedom: the outcome is a function of which labels
    occur. *)
Lemma slot_rule_functional (labels1 labels2 : list string) (o1 o2 : string) :
  (∀ x, x ∈ labels1 ↔ x ∈ labels2) →
  slot_rule labels1 o1 → slot_rule labels2 o2 → o1 = o2.
Proof.
  intros Hsame (He1 & Hu1 & Hc1) (He2 & Hu2 & Hc2).
  destruct labels1 as [|x xs].
  - destruct labels2 as [|y ys]; [by rewrite He1, He2|].
    exfalso. apply (not_elem_of_nil y), Hsame. left.
  - destruct (decide (Forall (λ y, y = x) (x :: xs))) as [Hall|Hsome].
    + rewrite Forall_forall in Hall.
      rewrite (Hu1 x), (Hu2 x); [done| | | |].
      * apply Hsame. left.
      * intros y Hy. apply Hall, Hsame, Hy.
      * left.
      * done.
    + apply not_Forall_Exists in Hsome; [|apply _].
      apply Exists_exists in Hsome as (y & Hy & Hyx).
      rewrite (Hc1 y x), (Hc2 y x); [done| | | | | |]; try done.
      * by apply Hsame.
      * apply Hsame. left.
      * left.
Qed.

Lemma index_digits_closed (marks_per_column : list (list string)) :
  index_digits marks_per_column =
    (λ col_idx, index_digit (default [] (marks_per_column !! col_idx)))
      <$> seq 0 num_columns.
Proof. reflexivity. Qed.

Lemma index_digits_lookup (marks_per_column : list (list string)) (col_idx : nat) :
  (col_idx < num_columns)%nat →
  index_digits marks_per_column !! col_idx
  = Some (index_digit (default [] (marks_per_column !! col_idx))).
Proof.
  intros Hcol. rewrite index_digits_closed, list_lookup_fmap.
  by rewrite lookup_seq_lt.
Qed.

(** C1: for every slot the outcome is fixed by the set of distinct labels
    resolved to it: none gives ['X'], one distinct label gives that label,
    two or more distinct labels give ['M'] however often each occurs; the
    index columns and the questions follow the same rule.  An index column's
    labels are its list in [marks_per_column]; a question's labels are its
    entry in the dict the resolver builds, or none when it has no entry. *)
Theorem slot_outcome_rule :
  (∀ marks_in_col, slot_rule marks_in_col (index_digit marks_in_col))
  ∧ (∀ marks_per_column col_idx, (col_idx < num_columns)%nat →
       index_digits marks_per_column !! col_idx
       = Some (index_digit (default [] (marks_per_column !! col_idx))))
  ∧ (∀ bubble_centers_by_q marks q_num,
       let marks_per_question := map_answer_marks bubble_centers_by_q marks in
       slot_rule (default [] (marks_per_question !! q_num))
         (detected_answer marks_per_question q_num))
  ∧ (∀ labels1 labels2, (∀ x, x ∈ labels1 ↔ x ∈ labels2) →
       index_digit labels1 = index_digit labels2)
  ∧ (∀ d1 marks1 q1 d2 marks2 q2,
       let labels1 := default [] (map_answer_marks d1 marks1 !! q1) in
       let labels2 := default [] (map_answer_marks d2 marks2 !! q2) in
       (∀ x, x ∈ labels1 ↔ x ∈ labels2) →
       detected_answer (map_answer_marks d1 marks1) q1
       = detected_answer (map_answer_marks d2 marks2) q2)
  ∧ (∀ bubble_centers_by_q marks q_num,
       index_digit (default [] (map_answer_marks bubble_centers_by_q marks !! q_num))
       = detected_answer (map_answer_marks bubble_centers_by_q marks) q_num).
Proof.
  split; [exact index_digit_rule|].
  split; [exact index_digits_lookup|].
  split; [intros d marks q; apply detected_answer_rule, map_answer_marks_nonempty|].
  split; [|split].
  - intros l1 l2 Hsame.
    eapply slot_rule_functional; [exact Hsame| apply index_digit_rule ..].
  - intros d1 marks1 q1 d2 marks2 q2 l1 l2 Hsame.
    eapply slot_rule_functional; [exact Hsame| |];
      apply detected_answer_rule, map_answer_marks_nonempty.
  - intros d marks q.
    eapply slot_rule_functional; [done|apply index_digit_rule|].
    apply detected_answer_rule, map_answer_marks_nonempty.
Qed.

Lemma slot_outcome_rule_witness :
  index_digit [] = "X" ∧ index_digit ["3"; "3"] = "3"
  ∧ index_digit ["1"; "2"; "1"] = "M"
  ∧ detected_answer (answer_marks sample_answers_roi sample_marks) 3 = "M".
Proof.
  destruct slot_outcome_rule as (Hrule & _ & Hanswer & _).
  destruct (Hrule []) as (Hempty & _ & _).
  destruct (Hrule ["3"; "3"]) as (_ & Hunique & _).
  destruct (Hrule ["1"; "2"; "1"]) as (_ & _ & Hconflict).
  split; [by apply Hempty|]. split; [|split].
  - apply Hunique; [left|].
    intros y Hy. repeat (apply elem_of_cons in Hy as [Hy|Hy]; [done|]).
    by apply elem_of_nil in Hy.
  - apply (Hconflict "1" "2"); [left|right; left|done].
  - unfold answer_marks, sample_answers_roi, answers_calc_rect. cbv iota beta zeta.
    match goal with |- detected_answer (map_answer_marks ?grid ?marks) _ = _ =>
      destruct (Hanswer grid marks 3%Z) as (_ & _ & Hboth);
      assert (default [] (map_answer_marks grid marks !! 3%Z) = ["A"; "C"]) as Hlabels
        by (vm_compute; reflexivity)
    end.
    apply (Hboth "A" "C"); rewrite ?Hlabels; [left|right; left|done].
Defined.

(** C10: reordering the labels resolved to a slot does not change its
    outcome; hence reordering the detected marks changes neither an index
    digit nor a detected answer. *)
Theorem slot_outcome_reorder_invariant :
  (∀ labels labels', labels ≡ₚ labels' → index_digit labels = index_digit labels')
  ∧ (∀ (mpq mpq' : gmap Z (list string)) q_num labels labels',
       mpq !! q_num = Some labels → mpq' !! q_num = Some labels' →
       labels ≡ₚ labels' →
       detected_answer mpq q_num = detected_answer mpq' q_num)
  ∧ (∀ (mpq mpq' : gmap Z (list string)) q_num,
       mpq !! q_num = None → mpq' !! q_num = None →
       detected_answer mpq q_num = detected_answer mpq' q_num)
  ∧ (∀ anchors marks marks', marks ≡ₚ marks' →
       index_digits (map_indx_marks anchors marks)
       = index_digits (map_indx_marks anchors marks'))
  ∧ (∀ d marks marks' q_num, marks ≡ₚ marks' →
       detected_answer (map_answer_marks d marks) q_num
       = detected_answer (map_answer_marks d marks') q_num).
Proof.
  assert (∀ labels labels', labels ≡ₚ labels' → index_digit labels = index_digit labels')
    as Hindex.
  { intros l l' Hp. unfold index_digit. rewrite (list_set_perm l l' Hp).
    destruct l, l'; try done.
    - by apply Permutation_nil_cons in Hp.
    - symmetry in Hp. by apply Permutation_nil_cons in Hp. }
  split; [exact Hindex|]. split; [|split; [|split]].
  - intros mpq mpq' q l l' Hl Hl' Hp. unfold detected_answer.
    by rewrite Hl, Hl', (list_set_perm l l' Hp).
  - intros mpq mpq' q Hl Hl'. unfold detected_answer. by rewrite Hl, Hl'.
  - intros anchors marks marks' Hp. rewrite !index_digits_closed.
    apply list_fmap_ext. intros i col Hcol.
    apply lookup_seq in Hcol as [-> Hlt].
    rewrite !map_indx_marks_lookup by done. simpl.
    apply Hindex. by rewrite Hp.
  - intros d marks marks' q Hp. unfold detected_answer.
    rewrite !map_answer_marks_lookup.
    assert (omap (answer_label_for d q) marks ≡ₚ omap (answer_label_for d q) marks')
      as Hp' by (by rewrite Hp).
    destruct (omap _ marks) as [|x xs], (omap _ marks') as [|y ys]; try done.
    + by apply Permutation_nil_cons in Hp'.
    + symmetry in Hp'. by apply Permutation_nil_cons in Hp'.
    + by rewrite (list_set_perm _ _ Hp').
Qed.

Lemma slot_outcome_reorder_invariant_witness :
  index_digit ["4"; "7"; "4"] = index_digit ["7"; "4"; "4"].
Proof.
  apply (proj1 slot_outcome_reorder_invariant).
  apply perm_swap.
Defined.
(** ** The answer grid in closed form *)

Lemma lookup_bind_uniform {A B : Type} (f : A → list B) (n : nat) (l : list A)
    (k r : nat) :
  (∀ a, a ∈ l → length (f a) = n) → (r < n)%nat →
  (l ≫= f) !! (k * n + r)%nat = l !! k ≫= (λ a, f a !! r).
Proof.
  revert k. induction l as [|a l IH]; intros k Hlen Hr; [done|].
  rewrite bind_cons. destruct k as [|k]; simpl.
  - rewrite lookup_app_l; [done|]. rewrite Hlen; [done|left].
  - rewrite lookup_app_r; rewrite Hlen by left; [|lia].
    replace (n + k * n + r - n)%nat with (k * n + r)%nat by lia.
    apply IH; [|done]. intros b Hb. apply Hlen. by right.
Qed.

Module AnswerGridFacts.

Import AnswerGrid AnswerGridLayout.

Lemma calculate_bubble_centers_closed (x_start y_start roi_width roi_height : float) :
  (_calculate_bubble_centers x_start y_start roi_width roi_height).1.1.1
  = expected_grid x_start y_start roi_width roi_height.
Proof.
  cbv -[Py.int Py.float segment_height_ratio gap_height_ratio].
  reflexivity.
Qed.

Lemma column_boundaries_closed (roi_width : float) :
  column_boundaries roi_width =
    (λ '(col_name, (start_ratio, end_ratio)),
       (col_name, (Py.int (roi_width * start_ratio), Py.int (roi_width * end_ratio))))
    <$> column_definitions_ratios.
Proof. reflexivity. Qed.

Lemma expected_grid_lookup (x_start y_start roi_width roi_height : float)
    (k r : nat) (col_name : string) (start_ratio end_ratio : float) :
  column_definitions_ratios !! k = Some (col_name, (start_ratio, end_ratio)) →
  (r < questions_per_column)%nat →
  expected_grid x_start y_start roi_width roi_height
    !! (k * questions_per_column + r)%nat
  = Some (Z.of_nat (questions_per_column * k + r + 1),
          grid_row x_start y_start roi_height
            (Py.int (roi_width * start_ratio)) (Py.int (roi_width * end_ratio)) r).
Proof.
  intros Hk Hr. unfold expected_grid.
  assert (k < 5)%nat as Hk5 by (apply lookup_lt_Some in Hk; exact Hk).
  rewrite (lookup_bind_uniform _ questions_per_column); [|clear k Hk Hk5|done].
  - rewrite lookup_seq_lt by done. cbn [mbind option_bind plus].
    rewrite column_boundaries_closed, list_lookup_fmap, Hk. cbn [fmap option_fmap option_map].
    rewrite list_lookup_fmap, lookup_seq_lt by done. done.
  - intros k Hk. apply elem_of_seq in Hk.
    destruct (column_boundaries roi_width !! k) as [[? [??]]|] eqn:E.
    + by rewrite length_fmap, length_seq.
    + apply lookup_ge_None in E. simpl in E. lia.
Qed.

Lemma expected_grid_keys (x_start y_start roi_width roi_height : float) :
  (expected_grid x_start y_start roi_width roi_height).*1 = seqZ 1 200.
Proof. reflexivity. Qed.

(** The two ratios are the binary64 numbers nearest to [0.02115] and
    [0.022]. *)
Lemma segment_height_ratio_value :
  segment_height_ratio = ((1 - 7 * 0.022) / 40)%float
  ∧ segment_height_ratio = 0.02115%float
  ∧ (Qabs (exact_value segment_height_ratio - (1 - 7 * 0.022) / 40) <= 1 # 10 ^ 17)%Q
  ∧ (Qabs (exact_value gap_height_ratio - 0.022) <= 1 # 10 ^ 17)%Q.
Proof.
  split; [reflexivity|]. split; [reflexivity|].
  split; apply Qle_bool_iff; vm_compute; reflexivity.
Qed.

(** Forty rows and seven gaps fill the height of the rectangle. *)
Lemma rows_and_gaps_fill :
  (Qabs (40 * exact_value segment_height_ratio + 7 * exact_value gap_height_ratio - 1)
   <= 1 # 10 ^ 15)%Q.
Proof. apply Qle_bool_iff. vm_compute. reflexivity. Qed.

(** A row starts one row height below the row above it, and one gap
    further down when that row completed a group of five. *)
Lemma row_offset_step (r : nat) :
  row_offset (S r) =
    if decide (S r mod 5 = 0)%nat
    then (row_offset r + segment_height_ratio + gap_height_ratio)%float
    else (row_offset r + segment_height_ratio)%float.
Proof. reflexivity. Qed.

(** Rounding moves no row away from its place by more than [1e-15] of the
    height. *)
Lemma row_offset_exact (r : nat) :
  (r < questions_per_column)%nat →
  (Qabs (exact_value (row_offset r) - ideal_row_offset r) <= 1 # 10 ^ 15)%Q.
Proof.
  intros Hr. unfold questions_per_column in Hr.
  do 40 (destruct r as [|r]; [apply Qle_bool_iff; vm_compute; reflexivity|]). lia.
Qed.

(** Rows follow each other downwards. *)
Lemma row_center_increasing (r r' : nat) :
  (r < r')%nat → (r' < questions_per_column)%nat →
  Py.ltb (row_offset r + segment_height_ratio / 2)
         (row_offset r' + segment_height_ratio / 2) = true.
Proof.
  intros Hr Hr'.
  assert (Forall (λ r, Forall (λ r', (r < r')%nat →
            Py.ltb (row_offset r + segment_height_ratio / 2)
                   (row_offset r' + segment_height_ratio / 2) = true)
            (seq 0 questions_per_column)) (seq 0 questions_per_column)) as Hall
    by (apply (bool_decide_unpack _); vm_compute; exact I).
  rewrite Forall_forall in Hall. specialize (Hall r).
  rewrite Forall_forall in Hall.
  apply Hall; [| |done]; apply elem_of_seq; lia.
Qed.

(** The column bands are listed from left to right and do not overlap. *)
Lemma column_bands_ordered (k k' : nat) (col col' : string * (float * float)) :
  (k < k')%nat →
  column_definitions_ratios !! k = Some col →
  column_definitions_ratios !! k' = Some col' →
  Py.ltb col.2.1 col.2.2 = true ∧ Py.ltb col.2.2 col'.2.1 = true.
Proof.
  intros Hk Hcol Hcol'.
  assert (k' < 5)%nat as Hk' by (apply lookup_lt_Some in Hcol'; exact Hcol').
  do 5 (destruct k as [|k]; [
    do 5 (destruct k' as [|k']; [first [lia | by simplify_eq/=]|]); lia |]).
  lia.
Qed.

End AnswerGridFacts.

(** C3: in the answer grid every question row takes [(1 - 7 * 0.022) / 40]
    of the height of the rectangle and a gap of [0.022] is crossed exactly
    when a group of five rows has been completed (so only between the eight
    groups, seven gaps in all): the two ratios are the binary64 values of
    these expressions, rows and gaps together fill the height, the offset of
    row [r + 1] is that of row [r] plus one row height, plus the gap when
    [r + 1] is a multiple of five, and no offset is farther than [1e-15]
    from [r * (1 - 7 * 0.022) / 40 + (r // 5) * 0.022].  The questions are
    numbered [1, 2, ...] in the order the five column bands are listed (left
    to right) and, within a band, from the top row down: row [r] of band [k]
    is question [40 * k + r + 1], comes at position [40 * k + r] of the
    dict, and its five anchors sit at the pixel row
    [int((row_offset r + segment / 2) * roi_height)]; that ratio grows with
    [r], and each band ends before the next one starts. *)
Theorem answer_grid_vertical_layout (x_start y_start roi_width roi_height : float) :
  let result := AnswerGrid._calculate_bubble_centers x_start y_start roi_width roi_height in
  let bubble_centers := result.1.1.1 in
  let segment_height_ratio := result.1.2 in
  let gap_height_ratio := result.2 in
  let row_offset := AnswerGridLayout.row_offset in
  segment_height_ratio = ((1 - 7 * 0.022) / 40)%float
  ∧ gap_height_ratio = 0.022%float
  ∧ (Qabs (exact_value segment_height_ratio - (1 - 7 * 0.022) / 40) <= 1 # 10 ^ 17)%Q
  ∧ (Qabs (exact_value gap_height_ratio - 0.022) <= 1 # 10 ^ 17)%Q
  ∧ (Qabs (40 * exact_value segment_height_ratio + 7 * exact_value gap_height_ratio - 1)
     <= 1 # 10 ^ 15)%Q
  ∧ row_offset 0%nat = 0%float
  ∧ (∀ r : nat,
       row_offset (S r) =
         if decide (S r mod 5 = 0)%nat
         then (row_offset r + segment_height_ratio + gap_height_ratio)%float
         else (row_offset r + segment_height_ratio)%float)
  ∧ (∀ r : nat, (r < 40)%nat →
       (Qabs (exact_value (row_offset r)
              - (inject_Z (Z.of_nat r) * ((1 - 7 * 0.022) / 40)
                 + inject_Z (Z.of_nat (r / 5)) * 0.022))
        <= 1 # 10 ^ 15)%Q)
  ∧ (∀ r r' : nat, (r < r')%nat → (r' < 40)%nat →
       Py.ltb (row_offset r + segment_height_ratio / 2)
              (row_offset r' + segment_height_ratio / 2) = true)
  ∧ (OrderedDict.items bubble_centers).*1 = seqZ 1 200
  ∧ (∀ (k k' : nat) (col col' : string * (float * float)), (k < k')%nat →
       AnswerGrid.column_definitions_ratios !! k = Some col →
       AnswerGrid.column_definitions_ratios !! k' = Some col' →
       Py.ltb col.2.1 col.2.2 = true ∧ Py.ltb col.2.2 col'.2.1 = true)
  ∧ ∀ (k r : nat) (col_name : string) (start_ratio end_ratio : float),
      AnswerGrid.column_definitions_ratios !! k = Some (col_name, (start_ratio, end_ratio)) →
      (r < 40)%nat →
      let col_start_px := Py.int (roi_width * start_ratio) in
      let col_end_px := Py.int (roi_width * end_ratio) in
      let q_center_y_ratio := (row_offset r + segment_height_ratio / 2)%float in
      OrderedDict.items bubble_centers !! (k * 40 + r)%nat
      = Some (Z.of_nat (40 * k + r + 1),
              AnswerGridLayout.row_centers x_start y_start col_start_px
                (Py.float (col_end_px - col_start_px) / Py.float 5)
                (Py.int (q_center_y_ratio * roi_height))).
Proof.
  intros result bubble_centers seg gap row_offset.
  destruct AnswerGridFacts.segment_height_ratio_value as (Hseg & _ & Hseg_exact & Hgap_exact).
  split; [exact Hseg|]. split; [reflexivity|].
  split; [exact Hseg_exact|]. split; [exact Hgap_exact|].
  split; [exact AnswerGridFacts.rows_and_gaps_fill|].
  split; [reflexivity|].
  split; [exact AnswerGridFacts.row_offset_step|].
  split; [exact AnswerGridFacts.row_offset_exact|].
  split; [exact AnswerGridFacts.row_center_increasing|].
  subst bubble_centers result. rewrite AnswerGridFacts.calculate_bubble_centers_closed.
  split; [apply AnswerGridFacts.expected_grid_keys|].
  split; [exact AnswerGridFacts.column_bands_ordered|].
  intros k r col_name start_ratio end_ratio Hk Hr col_start_px col_end_px y.
  unfold OrderedDict.items.
  by rewrite (AnswerGridFacts.expected_grid_lookup _ _ _ _ k r col_name start_ratio end_ratio).
Qed.

Lemma answer_grid_vertical_layout_witness :
  ∃ centers,
    OrderedDict.items (AnswerGrid._calculate_bubble_centers 0 0 965 1000).1.1.1 !! 47%nat
    = Some (48%Z, centers).
Proof.
  destruct (answer_grid_vertical_layout 0 0 965 1000)
    as (_ & _ & _ & _ & _ & _ & _ & _ & _ & _ & _ & Hrow).
  eexists.
  apply (Hrow 1%nat 7%nat "secondCol" (235 / 965)%float (375 / 965)%float); [reflexivity|].
  unfold lt. repeat constructor.
Defined.

(** Truncation of a product that rounding leaves just below a whole number
    of pixels: at a width of 193 the first band starts at pixel 6 (in exact
    arithmetic [193 * 35 / 965] is 7). *)
Example band_of_width_193 :
  AnswerGrid.column_boundaries 193 !! 0%nat = Some ("firstCol", (6%Z, 35%Z)).
Proof. reflexivity. Qed.

(** On the answers ROI [(283, 1000, 1055, 3000)] the refined width is
    rounded to [702.51999999999987] and the second band ends at pixel 272;
    a mark at [(574, 1099)] is read as option E of question 41. *)
Example band_of_rounded_width :
  let rect := answers_calc_rect (283, 1000, 1055, 3000)%float in
  let mark := {| center_x := 574; center_y := 1099; confidence := 0.9 |} in
  (rect.1.2 - rect.1.1.1)%float = 702.51999999999987%float
  ∧ AnswerGrid.column_boundaries (rect.1.2 - rect.1.1.1) !! 1%nat
    = Some ("secondCol", (171%Z, 272%Z))
  ∧ answer_marks (283, 1000, 1055, 3000)%float [mark] !! 41%Z = Some ["E"].
Proof. split; [|split]; vm_compute; reflexivity. Qed.

(** ** The index grid *)

Lemma digit_centers_closed (x_start y_start cw rh : float) :
  digit_centers x_start y_start cw rh =
    col_idx ← seq 0 num_columns;
    digit_center x_start y_start cw rh col_idx <$> seq 0 num_digits_per_column.
Proof.
  unfold digit_centers, Py.for_range at 1.
  assert (∀ n k acc,
    fold_left (λ digit_centers col_idx,
      Py.for_range num_digits_per_column (λ digit_centers digit,
        digit_centers ++ [digit_center x_start y_start cw rh col_idx digit])
        digit_centers) (seq k n) acc
    = acc ++ (col_idx ← seq k n;
              digit_center x_start y_start cw rh col_idx <$> seq 0 num_digits_per_column))
    as Hloop.
  { induction n as [|n IH]; intros k acc.
    - by rewrite app_nil_r.
    - cbn [seq fold_left]. rewrite for_range_collect, IH, bind_cons.
      by rewrite <- app_assoc. }
  apply (Hloop num_columns 0%nat []).
Qed.

Lemma digit_centers_length (x_start y_start cw rh : float) :
  length (digit_centers x_start y_start cw rh) = 70%nat.
Proof. by rewrite digit_centers_closed. Qed.

Lemma digit_centers_lookup (x_start y_start cw rh : float) (col_idx digit : nat) :
  (col_idx < num_columns)%nat → (digit < num_digits_per_column)%nat →
  digit_centers x_start y_start cw rh !! (col_idx * num_digits_per_column + digit)%nat
  = Some (digit_center x_start y_start cw rh col_idx digit).
Proof.
  intros Hc Hd. rewrite digit_centers_closed.
  rewrite (lookup_bind_uniform _ num_digits_per_column); [| |done].
  - rewrite lookup_seq_lt by done. cbn [mbind option_bind plus].
    by rewrite list_lookup_fmap, lookup_seq_lt.
  - intros c _. by rewrite length_fmap, length_seq.
Qed.

Lemma digit_centers_elem_of (x_start y_start cw rh : float) (a : DigitCenter) :
  a ∈ digit_centers x_start y_start cw rh ↔
  ∃ col_idx digit, (col_idx < num_columns)%nat ∧ (digit < num_digits_per_column)%nat
                   ∧ a = digit_center x_start y_start cw rh col_idx digit.
Proof.
  rewrite digit_centers_closed, list_elem_of_bind. split.
  - intros (c & Ha & Hc). apply elem_of_seq in Hc.
    apply list_elem_of_fmap in Ha as (d & -> & Hd). apply elem_of_seq in Hd.
    exists c, d. repeat split; lia.
  - intros (c & d & Hc & Hd & ->). exists c. split.
    + apply list_elem_of_fmap. exists d. split; [done|]. apply elem_of_seq. lia.
    + apply elem_of_seq. lia.
Qed.

(** [str(d)] is one character for a digit. *)
Lemma str_digit (digit : nat) :
  (digit < 10)%nat → ∃ ch, Py.str digit = String ch "".
Proof.
  intros Hd. do 10 (destruct digit as [|digit]; [by eexists|]). lia.
Qed.

Lemma closest_digit_center_elem_of (mark : Mark) (anchors : list DigitCenter)
    (a : DigitCenter) :
  closest_digit_center mark anchors = Some a → a ∈ anchors.
Proof.
  intros Ha.
  destruct (closest_digit_center_first_minimum mark anchors)
    as [[Hnone _]|(i & a' & Ha' & Hi & _)]; [congruence|].
  rewrite Ha in Ha'. injection Ha' as <-. by eapply list_elem_of_lookup_2.
Qed.

(** An index digit is ['X'], ['M'] or one of the labels of its column. *)
Lemma index_digit_cases (marks_in_col : list string) :
  index_digit marks_in_col = "X" ∨ index_digit marks_in_col = "M"
  ∨ index_digit marks_in_col ∈ marks_in_col.
Proof.
  destruct marks_in_col as [|l ls]; [by left|]. right.
  unfold index_digit. cbv zeta. case_decide as Hlen; [|by left].
  destruct (Py.list_set (l :: ls)) as [|x [|??]] eqn:E; simplify_eq/=.
  right. apply list_set_elem_of. rewrite E. left.
Qed.

(** Every index digit is a single character. *)
Lemma index_digit_char (x_start y_start cw rh : float) (marks : list Mark) (col_idx : nat) :
  ∃ ch, index_digit (omap (indx_label_for (digit_centers x_start y_start cw rh) col_idx)
                       marks) = String ch "".
Proof.
  destruct (index_digit_cases
              (omap (indx_label_for (digit_centers x_start y_start cw rh) col_idx) marks))
    as [H| [H|Hin]]; [by eexists ..|].
  apply list_elem_of_omap in Hin as (m & _ & Hm).
  unfold indx_label_for in Hm.
  destruct (closest_digit_center m _) as [a|] eqn:Ha; [|done].
  simpl in Hm. case_decide; [|done]. injection Hm as Hm.
  apply closest_digit_center_elem_of, digit_centers_elem_of in Ha
    as (c & d & _ & Hd & ->).
  destruct (str_digit d Hd) as (ch & Hch). exists ch.
  etransitivity; [symmetry; exact Hm | exact Hch].
Qed.


(** ["".join(...)] of one-character strings. *)
Lemma single_chars (l : list string) :
  Forall (λ s, ∃ ch, s = String ch "") l → ∃ chars, l = (λ ch, String ch "") <$> chars.
Proof.
  induction 1 as [|s l [ch ->] _ [chars ->]]; [by exists []|]. by exists (ch :: chars).
Qed.

Lemma join_chars_get (chars : list Ascii.ascii) (i : nat) :
  String.get i (String.concat "" ((λ ch, String ch "") <$> chars)) = chars !! i.
Proof.
  revert i. induction chars as [|ch [|ch' chars] IH]; intros i.
  - by destruct i.
  - by destruct i as [|[|i]].
  - destruct i as [|i]; [done|]. apply (IH i).
Qed.

Lemma join_chars_length (chars : list Ascii.ascii) :
  String.length (String.concat "" ((λ ch, String ch "") <$> chars)) = length chars.
Proof.
  induction chars as [|ch [|ch' chars] IH]; [done..|].
  change (S (String.length (String.concat "" ((λ ch, String ch "") <$> ch' :: chars)))
          = S (length (ch' :: chars))).
  by rewrite IH.
Qed.

(** The index number has one character per column, in column order. *)
Lemma index_number_chars (x_start y_start cw rh : float) (marks : list Mark) :
  let marks_per_column := map_indx_marks (digit_centers x_start y_start cw rh) marks in
  let indxNo := String.concat "" (index_digits marks_per_column) in
  String.length indxNo = num_columns
  ∧ ∀ col_idx, (col_idx < num_columns)%nat →
      ∃ ch, index_digit (default [] (marks_per_column !! col_idx)) = String ch ""
            ∧ String.get col_idx indxNo = Some ch.
Proof.
  intros mpc indxNo.
  destruct (single_chars (index_digits mpc)) as [chars Hchars].
  { rewrite index_digits_closed. apply Forall_fmap, Forall_forall.
    intros c Hc. apply elem_of_seq in Hc. simpl. subst mpc.
    rewrite map_indx_marks_lookup by lia. apply index_digit_char. }
  subst indxNo. rewrite Hchars, join_chars_length. split.
  - apply (f_equal length) in Hchars. rewrite length_fmap in Hchars.
    rewrite <- Hchars, index_digits_closed, length_fmap. apply length_seq.
  - intros c Hc. rewrite join_chars_get.
    pose proof (index_digits_lookup mpc c Hc) as Hlook.
    rewrite Hchars, list_lookup_fmap in Hlook.
    destruct (chars !! c) as [ch|]; [|done]. exists ch. split; [|done].
    by injection Hlook as <-.
Qed.

(** C4: on a refined index rectangle of positive width and height the
    generator yields 70 anchors, the one of column [c] and digit [d] (at
    position [10 * c + d]) being centred at the origin of the rectangle plus
    [(c * column_width + column_width / 2, d * row_height + row_height / 2)]
    (that is [(c + 0.5) * column_width] and [(d + 0.5) * row_height],
    evaluated in binary64 in the order the source writes them) and labelled
    [str(d)]; every anchor is the anchor of such a pair; the stage resolves
    the marks against these anchors, and character [c] of the index number
    it stores is the outcome of column [c]. *)
Theorem index_grid_anchors (orig_x_start orig_y_start orig_x_end orig_y_end : float) :
  let roi := (orig_x_start, orig_y_start, orig_x_end, orig_y_end) in
  let x_start := (indx_calc_rect roi).1.1.1 in
  let y_start := (indx_calc_rect roi).1.1.2 in
  let x_end := (indx_calc_rect roi).1.2 in
  let y_end := (indx_calc_rect roi).2 in
  let column_width := ((x_end - x_start) / 7)%float in
  let row_height := ((y_end - y_start) / 10)%float in
  let anchors := digit_centers x_start y_start column_width row_height in
  Py.ltb 0 (x_end - x_start) = true → Py.ltb 0 (y_end - y_start) = true →
  length anchors = 70%nat
  ∧ (∀ c d, (c < 7)%nat → (d < 10)%nat →
       ∃ a, anchors !! (c * 10 + d)%nat = Some a
            ∧ dc_col a = c ∧ dc_digit a = Py.str d
            ∧ dc_x a = (x_start + Py.float (Z.of_nat c) * column_width
                        + column_width / 2)%float
            ∧ dc_y a = (y_start + Py.float (Z.of_nat d) * row_height
                        + row_height / 2)%float)
  ∧ (∀ a, a ∈ anchors →
       ∃ c d, (c < 7)%nat ∧ (d < 10)%nat ∧ anchors !! (c * 10 + d)%nat = Some a)
  ∧ (∀ w self, indx_roi_coords self = Some roi →
       let marks_per_column := map_indx_marks anchors (detected_indx_marks self) in
       start_indx_processing w self
       = (w, set_index_number (String.concat "" (index_digits marks_per_column)) self))
  ∧ (∀ marks,
       let marks_per_column := map_indx_marks anchors marks in
       let indxNo := String.concat "" (index_digits marks_per_column) in
       String.length indxNo = 7%nat
       ∧ ∀ c, (c < 7)%nat →
           ∃ ch, index_digit (default [] (marks_per_column !! c)) = String ch ""
                 ∧ String.get c indxNo = Some ch).
Proof.
  intros roi x_start y_start x_end y_end column_width row_height anchors Hw Hh.
  split; [apply digit_centers_length|]. split; [|split; [|split]].
  - intros c d Hc Hd. exists (digit_center x_start y_start column_width row_height c d).
    split; [by apply digit_centers_lookup|]. done.
  - intros a Ha. apply digit_centers_elem_of in Ha as (c & d & Hc & Hd & ->).
    exists c, d. split; [done|]. split; [done|]. by apply digit_centers_lookup.
  - intros w self Hroi mpc. unfold start_indx_processing. rewrite Hroi.
    apply ltb_leb_false in Hw, Hh.
    change (indx_calc_rect roi) with (x_start, y_start, x_end, y_end). cbv iota beta.
    rewrite Hw, Hh. reflexivity.
  - intros marks. apply index_number_chars.
Qed.

Lemma index_grid_anchors_witness :
  let rect := indx_calc_rect (0, 0, 1000, 1000)%float in
  ∃ a, digit_centers rect.1.1.1 rect.1.1.2
         ((rect.1.2 - rect.1.1.1) / 7) ((rect.2 - rect.1.1.2) / 10) !! 23%nat = Some a
       ∧ dc_col a = 2%nat ∧ dc_digit a = "3".
Proof.
  intros rect.
  destruct (index_grid_anchors 0 0 1000 1000) as (_ & Hanchor & _).
  - reflexivity.
  - reflexivity.
  - destruct (Hanchor 2%nat 3%nat) as (a & Ha & Hcol & Hdigit & _).
    + unfold lt. repeat constructor.
    + unfold lt. repeat constructor.
    + exists a. split; [exact Ha|]. split; [exact Hcol|exact Hdigit].
Defined.

(** On a rectangle whose column width and row height are powers of two no
    operation rounds: the anchor of column 2 and digit 3 sits at the origin
    plus [(2.5 * 64, 3.5 * 32)]. *)
Example index_anchor_exact :
  digit_centers 100 200 64 32 !! 23%nat
  = Some {| dc_x := 260; dc_y := 312; dc_col := 2; dc_digit := "3" |}.
Proof. reflexivity. Qed.

(** On the index ROI [(0, 0, 700, 940)] the anchor of digit 3 in column 0 is
    rounded to [360.72499999999997], just below the [360.725] of exact
    arithmetic; a mark at height [399.5] is then nearer to the anchor of
    digit 4, which is what the stage stores. *)
Example rounded_anchor_decides :
  let rect := indx_calc_rect (0, 0, 700, 940)%float in
  let anchors :=
    digit_centers rect.1.1.1 rect.1.1.2
      ((rect.1.2 - rect.1.1.1) / 7) ((rect.2 - rect.1.1.2) / 10) in
  let mark := {| center_x := 80; center_y := 399.5; confidence := 0.9 |} in
  let self :=
    start_shading_processing [box 1 0 0 700 940; box 0 80 399.5 80 399.5]
      (McqMarker_init "sheet.jpg" "t" 3 false None) in
  anchors !! 3%nat
  = Some {| dc_x := 80; dc_y := 360.72499999999997; dc_col := 0; dc_digit := "3" |}
  ∧ anchors !! 4%nat
    = Some {| dc_x := 80; dc_y := 438.27499999999998; dc_col := 0; dc_digit := "4" |}
  ∧ detected_indx_marks self = [mark]
  ∧ digit_distance mark <$> anchors !! 3%nat = Some 38.775000000000034%float
  ∧ digit_distance mark <$> anchors !! 4%nat = Some 38.774999999999977%float
  ∧ index_number (start_indx_processing module_loaded self).2 = "4XXXXXX".
Proof. repeat split; vm_compute; reflexivity. Qed.

(** ** The mark resolver *)

Lemma digit_centers_nonempty (x_start y_start cw rh : float) :
  digit_centers x_start y_start cw rh ≠ [].
Proof.
  intros H. pose proof (digit_centers_length x_start y_start cw rh) as Hlen.
  by rewrite H in Hlen.
Qed.

Lemma answer_grid_nonempty (x_start y_start roi_width roi_height : float) :
  scan_order (AnswerGrid._calculate_bubble_centers x_start y_start roi_width roi_height).1.1.1
  ≠ [].
Proof.
  rewrite AnswerGridFacts.calculate_bubble_centers_closed.
  pose proof (AnswerGridFacts.expected_grid_lookup x_start y_start roi_width roi_height
                0 0 "firstCol" (35 / 965)%float (175 / 965)%float eq_refl) as Hfirst.
  specialize (Hfirst ltac:(unfold AnswerGrid.questions_per_column; lia)).
  destruct (AnswerGridLayout.expected_grid _ _ _ _) as [|[q row] rest]; [done|].
  injection Hfirst as _ ->. done.
Qed.

(** *** Where a NaN can come from

    A rounded result carries the sign it was rounded with and is never a
    NaN; hence a square and a sum of squares have a clear sign bit, and the
    square root of such a number is a number. *)


Lemma shr_1_nonneg (mrs : shr_record) : (0 ≤ shr_m mrs)%Z → (0 ≤ shr_m (shr_1 mrs))%Z.
Proof. destruct mrs as [[|[p|p|]|p] r s]; cbn; lia. Qed.

Lemma iter_pos_invariant {A : Type} (P : A → Prop) (f : A → A) (n : positive) (x : A) :
  (∀ y, P y → P (f y)) → P x → P (SpecFloat.iter_pos f n x).
Proof.
  intros Hf. revert x. induction n as [n IH|n IH|]; intros x Hx; cbn; auto.
Qed.

Lemma shr_nonneg (mrs : shr_record) (e n : Z) :
  (0 ≤ shr_m mrs)%Z → (0 ≤ shr_m (shr mrs e n).1)%Z.
Proof.
  intros Hm. destruct n as [|p|p]; cbn; [done| |done].
  by apply (iter_pos_invariant (λ mrs, 0 ≤ shr_m mrs)%Z), Hm; [apply shr_1_nonneg].
Qed.

Lemma shr_fexp_nonneg (m e : Z) (l : location) :
  (0 ≤ m)%Z → (0 ≤ shr_m (shr_fexp prec emax m e l).1)%Z.
Proof.
  intros Hm. unfold shr_fexp. apply shr_nonneg.
  by destruct l as [|[]].
Qed.

Lemma round_nearest_even_nonneg (m : Z) (l : location) :
  (0 ≤ m)%Z → (0 ≤ round_nearest_even m l)%Z.
Proof. intros Hm. destruct l as [|[]]; cbn; try done; [case_match|]; lia. Qed.

Lemma binary_round_aux_signed (sx : bool) (mx ex : Z) (lx : location) :
  (0 ≤ mx)%Z → signed sx (binary_round_aux prec emax sx mx ex lx).
Proof.
  intros Hm. unfold binary_round_aux.
  pose proof (shr_fexp_nonneg mx ex lx Hm) as H1.
  destruct (shr_fexp prec emax mx ex lx) as [mrs' e']. cbn [fst] in H1.
  pose proof (shr_fexp_nonneg (round_nearest_even (shr_m mrs') (loc_of_shr_record mrs'))
                e' loc_Exact (round_nearest_even_nonneg _ _ H1)) as H2.
  destruct (shr_fexp prec emax _ e' loc_Exact) as [mrs'' e'']. cbn [fst] in H2.
  destruct (shr_m mrs'') as [|p|p]; [done| |lia].
  by case_match.
Qed.

Lemma binary_round_signed (sx : bool) (mx : positive) (ex : Z) :
  signed sx (binary_round prec emax sx mx ex).
Proof.
  unfold binary_round. destruct (shl_align _ _ _) as [mz ez].
  by apply binary_round_aux_signed.
Qed.

Lemma binary_normalize_not_nan (m e : Z) (szero : bool) :
  binary_normalize prec emax m e szero ≠ S754_nan.
Proof.
  destruct m as [|p|p]; cbn; [done| |].
  - pose proof (binary_round_signed false p e) as H. intros Heq. by rewrite Heq in H.
  - pose proof (binary_round_signed true p e) as H. intros Heq. by rewrite Heq in H.
Qed.

Lemma SFmul_square (x : spec_float) : x ≠ S754_nan → sign_clear (SFmul prec emax x x).
Proof.
  destruct x as [s|s| |s m e]; cbn -[binary_round_aux]; try done; intros _;
    try by destruct s.
  pose proof (binary_round_aux_signed (xorb s s) (Z.pos (m * m)) (e + e) loc_Exact) as H.
  specialize (H ltac:(lia)). unfold sign_clear, signed in *.
  destruct (binary_round_aux _ _ _ _ _ _); try done; by destruct s.
Qed.

Lemma SFadd_sign_clear (x y : spec_float) :
  sign_clear x → sign_clear y → sign_clear (SFadd prec emax x y).
Proof.
  destruct x as [sx|sx| |sx mx ex], y as [sy|sy| |sy my ey];
    cbn -[binary_normalize shl_align]; try done; try (by intros -> ->).
  intros -> ->. cbn -[binary_normalize shl_align].
  set (a := (shl_align mx ex (Z.min ex ey)).1).
  set (b := (shl_align my ey (Z.min ex ey)).1).
  change (Z.pos a + Z.pos b)%Z with (Z.pos (a + b)). cbn [binary_normalize].
  apply binary_round_signed.
Qed.

Lemma Z_sqrtrem_nonneg (n : Z) : (0 ≤ (Z.sqrtrem n).1)%Z.
Proof.
  destruct n as [|p|p]; cbn; try done.
  destruct (Pos.sqrtrem p) as [s [| |]]; cbn; lia.
Qed.

Lemma SFsqrt_sign_clear (x : spec_float) :
  sign_clear x → SFsqrt prec emax x ≠ S754_nan.
Proof.
  destruct x as [s|s| |s m e]; cbn -[binary_round_aux SFsqrt_core_binary]; try done;
    try (by intros ->).
  intros ->. unfold SFsqrt_core_binary.
  set (m' := match _ with Z.pos _ => _ | _ => _ end).
  pose proof (Z_sqrtrem_nonneg m') as Hq.
  destruct (Z.sqrtrem m') as [q r]. cbn [fst] in Hq.
  intros Heq.
  pose proof (binary_round_aux_signed false q
                (Z.min (fexp prec emax (Z.div2 (Zdigits2 (Z.pos m) + e + 1))) (Z.div2 e))
                (if (r =? 0)%Z then loc_Exact
                 else loc_Inexact (if (r <=? q)%Z then Lt else Gt)) Hq) as H.
  by rewrite Heq in H.
Qed.

(** The difference of two finite floats is not a NaN. *)
Lemma finite_spec (x : float) :
  is_finite x = true →
  match Prim2SF x with S754_zero _ | S754_finite _ _ _ => True | _ => False end.
Proof.
  unfold is_finite, is_infinity. rewrite negb_true_iff, orb_false_iff.
  intros [Hnan Hinf]. apply not_nan_spec in Hnan.
  rewrite FloatAxioms.eqb_spec, abs_spec in Hinf.
  change (Prim2SF infinity) with (S754_infinity false) in Hinf.
  by destruct (Prim2SF x) as [s|s| |s m e].
Qed.

Lemma sub_not_nan (x y : float) :
  is_finite x = true → is_finite y = true → is_nan (x - y) = false.
Proof.
  intros Hx Hy. apply finite_spec in Hx, Hy. apply not_nan_spec.
  rewrite sub_spec. unfold SF64sub.
  destruct (Prim2SF x) as [sx|sx| |sx mx ex], (Prim2SF y) as [sy|sy| |sy my ey];
    try done; cbn -[binary_normalize shl_align].
  - by destruct sx, sy.
  - apply binary_normalize_not_nan.
Qed.

Lemma euclidean_distance_not_nan (p q : float * float) :
  is_nan (p.1 - q.1) = false → is_nan (p.2 - q.2) = false →
  is_nan (euclidean_distance p q) = false.
Proof.
  intros Hx Hy. apply not_nan_spec in Hx, Hy. apply not_nan_spec.
  unfold euclidean_distance. rewrite sqrt_spec, add_spec, !mul_spec.
  apply SFsqrt_sign_clear, SFadd_sign_clear; by apply SFmul_square.
Qed.

Lemma euclidean_distance_finite (p q : float * float) :
  is_finite p.1 = true → is_finite p.2 = true →
  is_finite q.1 = true → is_finite q.2 = true →
  is_nan (euclidean_distance p q) = false.
Proof.
  intros. apply euclidean_distance_not_nan; by apply sub_not_nan.
Qed.

(** Two anchors at the same distance from a mark: the one met first is kept. *)
Example tie_goes_to_first_anchor :
  let mark := {| center_x := 5; center_y := 0; confidence := 1 |} in
  let left_anchor := {| dc_x := 0; dc_y := 0; dc_col := 0; dc_digit := "0" |} in
  let right_anchor := {| dc_x := 10; dc_y := 0; dc_col := 1; dc_digit := "0" |} in
  digit_distance mark left_anchor = 5%float
  ∧ digit_distance mark right_anchor = 5%float
  ∧ closest_digit_center mark [left_anchor; right_anchor] = Some left_anchor
  ∧ closest_digit_center mark [right_anchor; left_anchor] = Some right_anchor.
Proof. repeat split; reflexivity. Qed.

(** The distance is the Euclidean one: the hypotenuse of the triangle with
    legs 3 and 4, and of the one with legs 5 and 12. *)
Example euclidean_distance_triangles :
  euclidean_distance (1, 2)%float (4, 6)%float = 5%float
  ∧ euclidean_distance (0, 12)%float (5, 0)%float = 13%float.
Proof. split; reflexivity. Qed.

(** C5: the resolver assigns a mark to an anchor at minimum Euclidean
    distance (the binary64 value of the square root of the sum of the two
    squared coordinate differences) among all anchors of the grid, namely
    the first such anchor in the order in which the anchors were generated
    (every earlier anchor is strictly farther), and files the label of that
    anchor under the anchor's slot: an index column collects, in mark order,
    the digits of the marks whose winning anchor lies in it, and a question
    collects the options of the marks whose winning anchor belongs to it.
    A mark is left out only when no anchor lies at a distance below [inf];
    between finite points the distance is a number, and both generated grids
    have anchors. *)
Theorem mark_resolved_to_first_nearest_anchor :
  (∀ mark anchors,
     (closest_digit_center mark anchors = None
      ∧ out_of_reach (digit_distance mark) anchors)
     ∨ ∃ i a, closest_digit_center mark anchors = Some a
              ∧ first_minimum (digit_distance mark) anchors i a)
  ∧ (∀ anchors marks col, (col < num_columns)%nat →
       map_indx_marks anchors marks !! col
       = Some (omap (indx_label_for anchors col) marks))
  ∧ (∀ mark bubble_centers_by_q,
       (closest_bubble mark bubble_centers_by_q = (Py.inf, None, None)
        ∧ out_of_reach (bubble_distance mark) (scan_order bubble_centers_by_q))
       ∨ ∃ i q_num center,
           closest_bubble mark bubble_centers_by_q
           = (bubble_distance mark (q_num, center), Some center, Some q_num)
           ∧ first_minimum (bubble_distance mark) (scan_order bubble_centers_by_q)
               i (q_num, center))
  ∧ (∀ bubble_centers_by_q marks q_num,
       default [] (map_answer_marks bubble_centers_by_q marks !! q_num)
       = omap (answer_label_for bubble_centers_by_q q_num) marks)
  ∧ (∀ p q : float * float,
       is_finite p.1 = true → is_finite p.2 = true →
       is_finite q.1 = true → is_finite q.2 = true →
       is_nan (euclidean_distance p q) = false)
  ∧ (∀ x_start y_start cw rh, digit_centers x_start y_start cw rh ≠ [])
  ∧ (∀ x_start y_start roi_width roi_height,
       scan_order (AnswerGrid._calculate_bubble_centers
                     x_start y_start roi_width roi_height).1.1.1 ≠ []).
Proof.
  split; [exact closest_digit_center_first_minimum|].
  split; [exact map_indx_marks_lookup|].
  split; [exact closest_bubble_first_minimum|].
  split; [exact map_answer_marks_labels|].
  split; [exact euclidean_distance_finite|].
  split; [exact digit_centers_nonempty|exact answer_grid_nonempty].
Qed.

Lemma mark_resolved_to_first_nearest_anchor_witness :
  let mark := {| center_x := 5; center_y := 0; confidence := 1 |} in
  let left_anchor := {| dc_x := 0; dc_y := 0; dc_col := 0; dc_digit := "0" |} in
  let right_anchor := {| dc_x := 10; dc_y := 0; dc_col := 1; dc_digit := "0" |} in
  ∃ i, first_minimum (digit_distance mark) [left_anchor; right_anchor] i left_anchor.
Proof.
  intros mark left_anchor right_anchor.
  destruct (proj1 mark_resolved_to_first_nearest_anchor mark [left_anchor; right_anchor])
    as [[Hnone _]|(i & a & Ha & Hmin)].
  - discriminate Hnone.
  - injection Ha as <-. by exists i.
Defined.

(** ** Scoring *)

Lemma earns_mark_test (a : StudentAnswer) :
  bool_decide (answer a = correct_answer a) && negb (bool_decide (answer a ∈ ["X"; "M"]))
  = bool_decide (earns_mark a).
Proof.
  apply eq_bool_prop_intro.
  rewrite andb_True, negb_True, !bool_decide_spec. unfold earns_mark.
  rewrite !elem_of_cons, elem_of_nil. tauto.
Qed.

Lemma set_score_self (self : McqMarker) : set_score (score self) self = self.
Proof. by destruct self. Qed.

Lemma score_loop (answers : list StudentAnswer) (self : McqMarker) :
  Py.for_each answers (λ self student_ans,
    if bool_decide (answer student_ans = correct_answer student_ans)
       && negb (bool_decide (answer student_ans ∈ ["X"; "M"]))
    then set_score (score self + 1) self
    else self) self
  = set_score (score self + Z.of_nat (length (filter earns_mark answers))) self.
Proof.
  revert self. induction answers as [|a answers IH]; intros self.
  - simpl. by rewrite Z.add_0_r, set_score_self.
  - unfold Py.for_each in *. cbn [fold_left]. rewrite IH, earns_mark_test.
    rewrite filter_cons. destruct (decide (earns_mark a)) as [Ha|Ha].
    + rewrite bool_decide_eq_true_2 by done. unfold set_score. simpl. f_equal. lia.
    + by rewrite bool_decide_eq_false_2.
Qed.

Lemma calculate_score_script (w : World) (self : McqMarker) :
  is_scheme self = false →
  calculate_score w self
  = (w, set_score (Z.of_nat (length (filter earns_mark (student_answer self)))) self).
Proof.
  unfold calculate_score. intros ->. f_equal.
  change (student_answer (set_score 0 self)) with (student_answer self).
  by rewrite score_loop.
Qed.

(** C2: in script mode [calculate_score] stores the number of recorded
    answers whose detected outcome equals the correct label and is neither
    ['X'] nor ['M'], whatever the score was before; in scheme mode it
    returns at once, having printed its refusal and changed no field. *)
Theorem calculate_score_counts_correct_answers (w : World) (self : McqMarker) :
  (is_scheme self = false →
     calculate_score w self
     = (w, set_score (Z.of_nat (length (filter earns_mark (student_answer self)))) self))
  ∧ (is_scheme self = true →
       calculate_score w self
       = (print "Cannot calculate score for a mark scheme." w, self)).
Proof.
  split; [apply calculate_score_script|].
  unfold calculate_score. by intros ->.
Qed.

Lemma calculate_score_counts_correct_answers_witness :
  let answers :=
    [ {| answer_to := 1; answer := "B"; correct_answer := "B" |};
      {| answer_to := 2; answer := "X"; correct_answer := "X" |};
      {| answer_to := 3; answer := "M"; correct_answer := "?" |};
      {| answer_to := 4; answer := "C"; correct_answer := "C" |};
      {| answer_to := 5; answer := "D"; correct_answer := "A" |} ] in
  let self := set_student_answer answers (McqMarker_init "s.jpg" "t" 5 false None) in
  score (calculate_score module_loaded (set_score 40 self)).2 = 2%Z.
Proof.
  intros answers self.
  rewrite (proj1 (calculate_score_counts_correct_answers module_loaded (set_score 40 self))
             eq_refl).
  reflexivity.
Defined.

(** ** Recording the answers *)

Lemma set_student_answer_self (self : McqMarker) :
  set_student_answer (student_answer self) self = self.
Proof. by destruct self. Qed.

(** In script mode the loop over the questions appends one entry per
    question and touches nothing else. *)
Lemma record_answers_script (mpq : gmap Z (list string)) (qs : list Z)
    (w : World) (self : McqMarker) :
  is_scheme self = false →
  Py.for_each qs (record_answer mpq) (w, self)
  = (w, set_student_answer
          (student_answer self ++
             ((λ q_num, {| answer_to := q_num; answer := detected_answer mpq q_num;
                           correct_answer :=
                             lookup_correct_answer (deref w (mark_scheme self)) q_num |})
              <$> qs)) self).
Proof.
  revert self. induction qs as [|q qs IH]; intros self Hmode.
  - simpl. by rewrite app_nil_r, set_student_answer_self.
  - unfold Py.for_each in *. cbn [fold_left]. unfold record_answer at 2.
    rewrite Hmode, IH by done. cbn [student_answer set_student_answer mark_scheme].
    by rewrite <- app_assoc.
Qed.

(** In scheme mode it appends one entry per question to the scheme list. *)
Lemma record_answers_scheme (mpq : gmap Z (list string)) (qs : list Z)
    (w : World) (self : McqMarker) :
  is_scheme self = true →
  ∃ w', Py.for_each qs (record_answer mpq) (w, self) = (w', self)
        ∧ stdout w' = stdout w
        ∧ deref w' (mark_scheme self)
          = deref w (mark_scheme self) ++
              ((λ q_num, {| se_answer_to := q_num;
                            se_answer := detected_answer mpq q_num |}) <$> qs).
Proof.
  intros Hmode. revert w. induction qs as [|q qs IH]; intros w.
  - exists w. by rewrite app_nil_r.
  - unfold Py.for_each in *. cbn [fold_left]. unfold record_answer at 2. rewrite Hmode.
    destruct (IH (heap_append (mark_scheme self)
                    {| se_answer_to := q; se_answer := detected_answer mpq q |} w))
      as (w' & -> & Hout & Hscheme).
    exists w'. split; [done|]. split; [done|].
    rewrite Hscheme. unfold deref at 1, heap_append. cbn [heap].
    rewrite lookup_insert_eq, fmap_cons. cbn -[app]. by rewrite <- app_assoc.
Qed.

Lemma range_from_one (n : Z) : Py.range 1 (n + 1) = seqZ 1 n.
Proof. unfold Py.range. f_equal. lia. Qed.

Lemma start_answer_processing_eq (w : World) (self : McqMarker) (roi : ROI) :
  answers_roi_coords self = Some roi →
  start_answer_processing w self
  = Py.for_each (seqZ 1 (questions self))
      (record_answer (answer_marks roi (detected_answers_marks self))) (w, self).
Proof.
  intros Hroi. unfold start_answer_processing, answer_marks. rewrite Hroi.
  destruct roi as [[[a b] c] d].
  unfold answers_calc_rect, AnswerGrid._calculate_bubble_centers.
  cbv iota beta zeta. cbn [fst snd].
  rewrite range_from_one. reflexivity.
Qed.

Lemma start_answer_processing_script (w : World) (self : McqMarker) (roi : ROI) :
  is_scheme self = false → answers_roi_coords self = Some roi →
  start_answer_processing w self
  = (w, set_student_answer
          (student_answer self ++
             ((λ q_num,
                 {| answer_to := q_num;
                    answer := detected_answer
                                (answer_marks roi (detected_answers_marks self)) q_num;
                    correct_answer :=
                      lookup_correct_answer (deref w (mark_scheme self)) q_num |})
              <$> seqZ 1 (questions self))) self).
Proof.
  intros Hmode Hroi.
  by rewrite (start_answer_processing_eq w self roi), record_answers_script.
Qed.

Lemma lookup_correct_answer_present (scheme : list SchemeEntry) (q_num : Z) :
  (1 ≤ q_num ≤ Z.of_nat (length scheme))%Z →
  ∃ e, scheme !! Z.to_nat (q_num - 1) = Some e
       ∧ lookup_correct_answer scheme q_num = se_answer e.
Proof.
  intros Hq. unfold lookup_correct_answer. case_decide; [|lia].
  destruct (lookup_lt_is_Some_2 scheme (Z.to_nat (q_num - 1))) as [e He]; [lia|].
  exists e. by rewrite He.
Qed.

Lemma lookup_correct_answer_missing (scheme : list SchemeEntry) (q_num : Z) :
  (Z.of_nat (length scheme) < q_num)%Z → lookup_correct_answer scheme q_num = "?".
Proof. intros Hq. unfold lookup_correct_answer. case_decide; [lia|done]. Qed.

(** C6: in script mode, with the answers ROI detected, the stage records for
    every question [q] from 1 to [total_questions] one entry, numbered [q];
    its correct answer is the answer of the scheme entry at position [q]
    (whatever question number that entry carries) when the scheme has at
    least [q] entries, and ['?'] when the scheme is shorter; the stage runs to
    its end on any scheme, printing no error and leaving the store as it
    was. *)
Theorem correct_answer_by_position (w : World) (self : McqMarker) (roi : ROI) :
  is_scheme self = false → answers_roi_coords self = Some roi →
  let scheme := deref w (mark_scheme self) in
  let result := start_answer_processing w self in
  result.1 = w
  ∧ length (student_answer result.2)
    = (length (student_answer self) + Z.to_nat (questions self))%nat
  ∧ ∀ q, (1 ≤ q ≤ questions self)%Z →
      ∃ entry,
        student_answer result.2 !! (length (student_answer self) + Z.to_nat (q - 1))%nat
        = Some entry
        ∧ answer_to entry = q
        ∧ ((q ≤ Z.of_nat (length scheme))%Z →
             ∃ e, scheme !! Z.to_nat (q - 1) = Some e ∧ correct_answer entry = se_answer e)
        ∧ ((Z.of_nat (length scheme) < q)%Z → correct_answer entry = "?").
Proof.
  intros Hmode Hroi scheme result. subst result scheme.
  rewrite (start_answer_processing_script w self roi) by done.
  cbn [fst snd student_answer set_student_answer].
  split; [done|]. split.
  - by rewrite length_app, length_fmap, length_seqZ.
  - intros q Hq. eexists. split; [|split; [|split]].
    + rewrite lookup_app_r by lia.
      replace (length (student_answer self) + Z.to_nat (q - 1)
               - length (student_answer self))%nat with (Z.to_nat (q - 1)) by lia.
      rewrite list_lookup_fmap, lookup_seqZ_lt by lia.
      replace (1 + Z.of_nat (Z.to_nat (q - 1)))%Z with q by lia. reflexivity.
    + reflexivity.
    + intros Hlen. cbn [correct_answer]. apply lookup_correct_answer_present. lia.
    + intros Hlen. cbn [correct_answer]. by apply lookup_correct_answer_missing.
Qed.

Lemma correct_answer_by_position_witness :
  ∃ entry,
    student_answer (start_answer_processing script_run.1 script_run.2).2 !! 2%nat
    = Some entry
    ∧ correct_answer entry = "?".
Proof.
  destruct (correct_answer_by_position script_run.1 script_run.2 (0, 1000, 1930, 3000)%float)
    as (_ & _ & Hentry); [reflexivity..|].
  destruct (Hentry 3%Z) as (entry & Hlook & _ & _ & Hunknown); [done|].
  exists entry. split; [exact Hlook|]. by apply Hunknown.
Defined.

(** ** Missing ROIs *)

Lemma start_shading_processing_session (boxes : list DetectionBox) (self : McqMarker) :
  same_session self (start_shading_processing boxes self).
Proof.
  unfold start_shading_processing.
  set (s := Py.for_each boxes _ self).
  assert (same_session self s) as Hs.
  { subst s. apply (for_each_invariant (same_session self)); [done|].
    intros s b _ Hs. repeat case_decide; done. }
  clearbody s.
  destruct (indx_roi_coords s), (answers_roi_coords _); done.
Qed.

Lemma start_shading_processing_no_indx_roi (boxes : list DetectionBox) (self : McqMarker) :
  Forall (λ b, class_id b ≠ 1%Z) boxes → indx_roi_coords self = None →
  indx_roi_coords (start_shading_processing boxes self) = None.
Proof.
  intros Hboxes Hnone. unfold start_shading_processing.
  set (s := Py.for_each boxes _ self).
  assert (indx_roi_coords s = None) as Hs.
  { subst s. apply (for_each_invariant (λ s, indx_roi_coords s = None)); [done|].
    intros s b Hb Hs. rewrite Forall_forall in Hboxes. specialize (Hboxes b Hb).
    repeat case_decide; done. }
  clearbody s.
  rewrite Hs. by destruct (answers_roi_coords s).
Qed.

Lemma start_shading_processing_no_answers_roi (boxes : list DetectionBox)
    (self : McqMarker) :
  Forall (λ b, class_id b ≠ 2%Z) boxes → answers_roi_coords self = None →
  answers_roi_coords (start_shading_processing boxes self) = None.
Proof.
  intros Hboxes Hnone. unfold start_shading_processing.
  set (s := Py.for_each boxes _ self).
  assert (answers_roi_coords s = None) as Hs.
  { subst s. apply (for_each_invariant (λ s, answers_roi_coords s = None)); [done|].
    intros s b Hb Hs. rewrite Forall_forall in Hboxes. specialize (Hboxes b Hb).
    repeat case_decide; done. }
  clearbody s.
  destruct (indx_roi_coords s); cbn; by rewrite Hs.
Qed.

Lemma start_indx_processing_missing (w : World) (self : McqMarker) :
  indx_roi_coords self = None →
  start_indx_processing w self
  = (print "Error: Index ROI coordinates not detected by the model." w, self).
Proof. intros H. unfold start_indx_processing. by rewrite H. Qed.

Lemma start_answer_processing_missing (w : World) (self : McqMarker) :
  answers_roi_coords self = None →
  start_answer_processing w self
  = (print "Error: Answers ROI coordinates not detected by the model." w, self).
Proof. intros H. unfold start_answer_processing. by rewrite H. Qed.

Lemma marking_outcome_script (w : World) (self : McqMarker) :
  is_scheme self = false →
  (marking_outcome w self).2
  = ScriptOutcome (student_answer self) (index_number self)
      (Z.of_nat (length (filter earns_mark (student_answer self)))) (questions self).
Proof.
  intros Hmode. unfold marking_outcome. by rewrite Hmode, calculate_score_script.
Qed.

Lemma marking_outcome_world (w : World) (self : McqMarker) :
  is_scheme self = false → (marking_outcome w self).1.1 = w.
Proof.
  intros Hmode. unfold marking_outcome. by rewrite Hmode, calculate_score_script.
Qed.

(** What the answer stage leaves of the fields the result is built from, in
    script mode. *)
Lemma start_answer_processing_script_fields (w : World) (self : McqMarker) :
  is_scheme self = false →
  let self' := (start_answer_processing w self).2 in
  is_scheme self' = false ∧ index_number self' = index_number self
  ∧ questions self' = questions self
  ∧ (answers_roi_coords self = None → student_answer self' = student_answer self).
Proof.
  intros Hmode. destruct (answers_roi_coords self) as [roi|] eqn:Hroi.
  - by rewrite (start_answer_processing_script w self roi).
  - by rewrite start_answer_processing_missing.
Qed.

Lemma start_indx_processing_fields (w : World) (self : McqMarker) :
  let self' := (start_indx_processing w self).2 in
  is_scheme self' = is_scheme self ∧ questions self' = questions self
  ∧ student_answer self' = student_answer self
  ∧ answers_roi_coords self' = answers_roi_coords self
  ∧ detected_answers_marks self' = detected_answers_marks self.
Proof.
  unfold start_indx_processing. destruct (indx_roi_coords self) as [[[[a b] c] d]|]; [|done].
  unfold indx_calc_rect. cbv iota beta zeta. by case_match.
Qed.

(** ** The handler *)

Lemma update_one_upsert_elem_of (script_data : ScriptDoc) (scripts : list ScriptDoc) :
  script_data ∈ (update_one_upsert script_data scripts).1.
Proof.
  induction scripts as [|doc rest IH]; cbn; [left|].
  case_decide; [left|].
  destruct (update_one_upsert script_data rest) as [rest' upserted]. by right.
Qed.

(** The script-mode handler at the id of a stored test that has a scheme,
    step by step. *)
Lemma process_direct_script (ObjectId : string → option oid) (str : Exception → string)
    (db : Database) (w : World) (boxes : list DetectionBox) (filename test_id : string)
    (end_number : Z) (test_oid : oid) (test : TestDoc) (stored_scheme : list SchemeEntry) :
  ObjectId test_id = Some test_oid → tests db !! test_oid = Some test →
  test_scheme test = Some stored_scheme →
  let new := new_list stored_scheme w in
  let self :=
    start_shading_processing boxes
      (McqMarker_init (String.append "temp_" filename) test_id end_number false
         (Some new.1)) in
  let indexed := start_indx_processing new.2 self in
  let answered := start_answer_processing indexed.1 indexed.2 in
  let script_data :=
    {| script_test_id := test_oid;
       script_index_number := index_number answered.2;
       script_score := Z.of_nat (length (filter earns_mark (student_answer answered.2)));
       script_answers := student_answer answered.2;
       script_file_id := "" |} in
  let saved := update_one_upsert script_data (scripts db) in
  process_direct ObjectId str db w boxes filename test_id end_number false
  = ({| tests := tests db; scripts := saved.1 |}, answered.1,
     Message (if saved.2 then "Script added successfully"
              else "Script updated successfully")).
Proof.
  intros Hid Htest Hscheme new self indexed answered script_data saved.
  subst saved script_data answered indexed self new.
  unfold process_direct. cbn [negb]. rewrite Hid, Htest, Hscheme.
  destruct (new_list stored_scheme w) as [l w1]. cbn [fst snd].
  set (self := start_shading_processing boxes _).
  assert (is_scheme self = false ∧ questions self = end_number) as [Hmode Hq].
  { destruct (start_shading_processing_session boxes
                (McqMarker_init (String.append "temp_" filename) test_id end_number false
                   (Some l))) as (H1 & H2 & _).
    split; symmetry; [exact H1|exact H2]. }
  clearbody self.
  pose proof (start_indx_processing_fields w1 self) as (Hmode1 & Hq1 & _).
  destruct (start_indx_processing w1 self) as [w2 self2]. cbn [fst snd] in *.
  pose proof (start_answer_processing_script_fields w2 self2) as Hfields.
  destruct Hfields as (Hmode2 & _ & Hq2 & _); [congruence|].
  destruct (start_answer_processing w2 self2) as [w3 self3]. cbn [fst snd] in *.
  pose proof (marking_outcome_script w3 self3 Hmode2) as Hout.
  pose proof (marking_outcome_world w3 self3 Hmode2) as Hworld.
  destruct (marking_outcome w3 self3) as [[w4 self4] results]. cbn [fst snd] in *.
  subst results w4. unfold add_script. rewrite Hid.
  by destruct (update_one_upsert _ (scripts db)) as [scripts' upserted].
Qed.


(** ** Degenerate rectangles *)

(** The index stage checks the refined rectangle before it lays out the
    grid. *)
Lemma indx_stage_rejects_degenerate_roi (w : World) (self : McqMarker)
    (orig_x_start orig_y_start orig_x_end orig_y_end : float) :
  let rect := indx_calc_rect (orig_x_start, orig_y_start, orig_x_end, orig_y_end) in
  indx_roi_coords self = Some (orig_x_start, orig_y_start, orig_x_end, orig_y_end) →
  Py.leb (rect.2 - rect.1.1.2) 0 = true ∨ Py.leb (rect.1.2 - rect.1.1.1) 0 = true →
  start_indx_processing w self
  = (print "Error: Detected Index ROI dimensions are invalid." w, self).
Proof.
  intros rect Hroi Hdeg. subst rect. unfold start_indx_processing. rewrite Hroi.
  unfold indx_calc_rect in *. cbv iota beta zeta. cbn [fst snd] in Hdeg.
  destruct Hdeg as [Hdeg|Hdeg]; rewrite Hdeg; [done|].
  by rewrite orb_true_r.
Qed.

(** The answer stage has no such check: on any detected ROI it lays out the
    grid and records an outcome for every question, printing nothing. *)
Lemma answer_stage_never_rejects (w : World) (self : McqMarker) (roi : ROI) :
  is_scheme self = false → answers_roi_coords self = Some roi →
  (start_answer_processing w self).1 = w
  ∧ length (student_answer (start_answer_processing w self).2)
    = (length (student_answer self) + Z.to_nat (questions self))%nat.
Proof.
  intros Hmode Hroi.
  rewrite (start_answer_processing_script w self roi) by done.
  cbn [fst snd student_answer set_student_answer]. split; [done|].
  by rewrite length_app, length_fmap, length_seqZ.
Qed.

(** C7: at an answers ROI whose refined rectangle has width 0 and height 0
    the answer stage prints no error and records an outcome for each
    question, and the handler, called with the id of a stored test, stores
    them as a script and answers with the success message; the index stage
    given the same rectangle prints its error and stops. *)
Theorem answer_stage_accepts_degenerate_roi :
  let roi := (100, 1100, 100, 1100)%float in
  let rect := answers_calc_rect roi in
  let self :=
    start_shading_processing flat_answers_roi_boxes
      (McqMarker_init "sheet.jpg" "t" 2 false None) in
  let unmarked q := {| answer_to := q; answer := "X"; correct_answer := "?" |} in
  answers_roi_coords self = Some roi
  ∧ Py.leb (rect.1.2 - rect.1.1.1) 0 = true ∧ Py.leb (rect.2 - rect.1.1.2) 0 = true
  ∧ start_answer_processing module_loaded self
    = (module_loaded, set_student_answer [unmarked 1%Z; unmarked 2%Z] self)
  ∧ start_indx_processing module_loaded (set_indx_roi_coords (Some roi) self)
    = (print "Error: Detected Index ROI dimensions are invalid." module_loaded,
       set_indx_roi_coords (Some roi) self)
  ∧ ∃ w',
      process_direct hex_object_id sample_str (sample_db []) module_loaded flat_answers_roi_boxes
        "sheet.jpg" sample_test_id 2 false
      = ({| tests := tests (sample_db []);
            scripts := [ {| script_test_id := sample_test_id;
                            script_index_number := "XXXXXXX";
                            script_score := 0;
                            script_answers := [unmarked 1%Z; unmarked 2%Z];
                            script_file_id := "" |} ] |},
         w', Message "Script added successfully")
      ∧ stdout w' = [].
Proof.
  intros roi rect self unmarked.
  split; [reflexivity|]. split; [reflexivity|]. split; [reflexivity|].
  split; [|split].
  - rewrite (start_answer_processing_script module_loaded self roi) by reflexivity.
    reflexivity.
  - apply (indx_stage_rejects_degenerate_roi _ _ 100 1100 100 1100); [reflexivity|].
    left. reflexivity.
  - eexists. split; vm_compute; reflexivity.
Qed.

(** The detector saw nothing at all on the sheet: the handler stores a
    script without index number and without answers, and answers that the
    script was added. *)
Lemma missing_roi_partial_result :
  Forall (λ b, class_id b ≠ 1%Z ∧ class_id b ≠ 2%Z) ([] : list DetectionBox)
  ∧ ∃ w',
      process_direct hex_object_id sample_str (sample_db short_scheme) module_loaded []
        "sheet.jpg" sample_test_id 2 false
      = ({| tests := tests (sample_db short_scheme);
            scripts := [ {| script_test_id := sample_test_id;
                            script_index_number := "";
                            script_score := 0;
                            script_answers := [];
                            script_file_id := "" |} ] |},
         w', Message "Script added successfully").
Proof. split; [constructor|]. eexists. vm_compute. reflexivity. Qed.

(** C8 (as the code has it): when the detector produced no box of the class
    a stage needs, the stage prints its error line and returns normally,
    leaving the object as it was; the handler, called in script mode with
    the id of a stored test that has a scheme, then still stores a script
    and answers with a success message: a script with an empty index number
    when the index ROI is missing, and one with an empty answers list and
    score 0 when the answers ROI is missing. *)
Theorem missing_roi_prints_error_and_result_is_partial :
  (∀ w self, indx_roi_coords self = None →
     start_indx_processing w self
     = (print "Error: Index ROI coordinates not detected by the model." w, self))
  ∧ (∀ w self, answers_roi_coords self = None →
       start_answer_processing w self
       = (print "Error: Answers ROI coordinates not detected by the model." w, self))
  ∧ (∀ ObjectId str db w boxes filename test_id end_number test_oid test stored_scheme,
       ObjectId test_id = Some test_oid → tests db !! test_oid = Some test →
       test_scheme test = Some stored_scheme →
       Forall (λ b, class_id b ≠ 1%Z) boxes →
       ∃ db' w' message answers score,
         process_direct ObjectId str db w boxes filename test_id end_number false
         = (db', w', Message message)
         ∧ message ∈ ["Script added successfully"; "Script updated successfully"]
         ∧ {| script_test_id := test_oid; script_index_number := "";
              script_score := score; script_answers := answers;
              script_file_id := "" |} ∈ scripts db'
         ∧ "Error: Index ROI coordinates not detected by the model." ∈ stdout w')
  ∧ (∀ ObjectId str db w boxes filename test_id end_number test_oid test stored_scheme,
       ObjectId test_id = Some test_oid → tests db !! test_oid = Some test →
       test_scheme test = Some stored_scheme →
       Forall (λ b, class_id b ≠ 2%Z) boxes →
       ∃ db' w' message index_number,
         process_direct ObjectId str db w boxes filename test_id end_number false
         = (db', w', Message message)
         ∧ message ∈ ["Script added successfully"; "Script updated successfully"]
         ∧ {| script_test_id := test_oid; script_index_number := index_number;
              script_score := 0; script_answers := [];
              script_file_id := "" |} ∈ scripts db'
         ∧ "Error: Answers ROI coordinates not detected by the model." ∈ stdout w').
Proof.
  split; [exact start_indx_processing_missing|].
  split; [exact start_answer_processing_missing|]. split.
  - intros ObjectId str db w boxes filename test_id n test_oid test scheme Hid Htest Hscheme
      Hboxes.
    rewrite (process_direct_script ObjectId str db w boxes filename test_id n test_oid test
               scheme Hid Htest Hscheme).
    set (self := start_shading_processing boxes _).
    assert (indx_roi_coords self = None) as Hnone
      by (by apply start_shading_processing_no_indx_roi).
    pose proof (start_shading_processing_session boxes
                  (McqMarker_init (String.append "temp_" filename) test_id n false
                     (Some (new_list scheme w).1))) as (Hmode & _ & Hidx & _).
    fold self in Hmode, Hidx. cbn in Hmode, Hidx.
    rewrite (start_indx_processing_missing _ self Hnone). cbn [fst snd].
    set (w1 := print _ _).
    pose proof (start_answer_processing_script_fields w1 self (eq_sym Hmode))
      as (_ & Hidx' & _).
    rewrite Hidx', <- Hidx.
    eexists _, _, _, _, _. split; [reflexivity|]. split; [|split].
    + case_match; [left|right; left].
    + apply update_one_upsert_elem_of.
    + destruct (answers_roi_coords self) as [roi|] eqn:Hroi.
      * rewrite (start_answer_processing_script w1 self roi) by done.
        cbn [fst stdout]. subst w1. cbn [stdout print]. apply elem_of_app. right. left.
      * rewrite (start_answer_processing_missing w1 self Hroi).
        cbn [fst stdout print]. apply elem_of_app. left. subst w1. cbn [stdout print].
        apply elem_of_app. right. left.
  - intros ObjectId str db w boxes filename test_id n test_oid test scheme Hid Htest Hscheme
      Hboxes.
    rewrite (process_direct_script ObjectId str db w boxes filename test_id n test_oid test
               scheme Hid Htest Hscheme).
    set (self := start_shading_processing boxes _).
    assert (answers_roi_coords self = None) as Hnone
      by (by apply start_shading_processing_no_answers_roi).
    pose proof (start_shading_processing_session boxes
                  (McqMarker_init (String.append "temp_" filename) test_id n false
                     (Some (new_list scheme w).1))) as (_ & _ & _ & Hans & _).
    fold self in Hans. cbn in Hans.
    set (indexed := start_indx_processing _ self).
    pose proof (start_indx_processing_fields (new_list scheme w).2 self)
      as (_ & _ & Hans' & Hroi' & _).
    fold indexed in Hans', Hroi'.
    rewrite (start_answer_processing_missing indexed.1 indexed.2) by congruence.
    cbn [fst snd]. rewrite Hans', <- Hans. cbn [filter list_filter length Z.of_nat].
    eexists _, _, _, _. split; [reflexivity|]. split; [|split].
    + case_match; [left|right; left].
    + apply update_one_upsert_elem_of.
    + cbn [stdout print]. apply elem_of_app. right. left.
Qed.

Lemma missing_roi_prints_error_and_result_is_partial_witness :
  ∃ db' w' message answers score,
    process_direct hex_object_id sample_str (sample_db []) module_loaded [box 2 0 1000 1930 3000]
      "sheet.jpg" sample_test_id 2 false
    = (db', w', Message message)
    ∧ message ∈ ["Script added successfully"; "Script updated successfully"]
    ∧ {| script_test_id := sample_test_id; script_index_number := "";
         script_score := score; script_answers := answers;
         script_file_id := "" |} ∈ scripts db'
    ∧ "Error: Index ROI coordinates not detected by the model." ∈ stdout w'.
Proof.
  apply (proj1 (proj2 (proj2 missing_roi_prints_error_and_result_is_partial))
           hex_object_id sample_str (sample_db []) module_loaded [box 2 0 1000 1930 3000]
           "sheet.jpg" sample_test_id 2%Z sample_test_id {| test_scheme := Some [] |} []).
  - reflexivity.
  - reflexivity.
  - reflexivity.
  - repeat constructor. discriminate.
Defined.

(** ** The default [scheme] argument *)

(** In scheme mode the answer stage appends its outcomes to whatever list
    object [self.mark_scheme] refers to. *)
Lemma start_answer_processing_scheme (w : World) (self : McqMarker) (roi : ROI) :
  is_scheme self = true → answers_roi_coords self = Some roi →
  ∃ w', start_answer_processing w self = (w', self)
        ∧ deref w' (mark_scheme self)
          = deref w (mark_scheme self) ++
              ((λ q_num,
                  {| se_answer_to := q_num;
                     se_answer := detected_answer
                                    (answer_marks roi (detected_answers_marks self)) q_num |})
               <$> seqZ 1 (questions self)).
Proof.
  intros Hmode Hroi. rewrite (start_answer_processing_eq w self roi) by done.
  destruct (record_answers_scheme (answer_marks roi (detected_answers_marks self))
              (seqZ 1 (questions self)) w self Hmode) as (w' & Hrun & _ & Hscheme).
  by exists w'.
Qed.

(** Two objects built without a [scheme] argument refer to the same list. *)
Lemma default_scheme_aliased (path1 path2 test1 test2 : string) (n1 n2 : Z) (m1 m2 : bool) :
  mark_scheme (McqMarker_init path1 test1 n1 m1 None)
  = mark_scheme (McqMarker_init path2 test2 n2 m2 None).
Proof. reflexivity. Qed.

(** C9: two scheme sheets processed one after the other, both objects built
    without a [scheme] argument.  The first object starts on an empty
    scheme; the second one starts on the two entries the first one
    appended, and returns a scheme of four entries for its two questions. *)
Theorem default_scheme_shared_between_instances :
  let blank q := {| se_answer_to := q; se_answer := "X" |} in
  let first :=
    start_shading_processing [box 2 0 1000 1930 3000]
      (McqMarker_init "key1.jpg" "t" 2 true None) in
  let w1 := (start_answer_processing module_loaded first).1 in
  let second :=
    start_shading_processing [box 2 0 1000 1930 3000]
      (McqMarker_init "key2.jpg" "t" 2 true None) in
  let w2 := (start_answer_processing w1 second).1 in
  deref module_loaded (mark_scheme first) = []
  ∧ deref w1 (mark_scheme (McqMarker_init "key2.jpg" "t" 2 true None))
    = [blank 1%Z; blank 2%Z]
  ∧ (marking_outcome w2 second).2
    = SchemeOutcome [blank 1%Z; blank 2%Z; blank 1%Z; blank 2%Z].
Proof.
  intros blank first w1 second w2.
  split; [reflexivity|]. split; vm_compute; reflexivity.
Qed.
(** ** Detection *)

Lemma shading_loop (boxes : list DetectionBox) (self : McqMarker) :
  let self' :=
    Py.for_each boxes (λ self box,
      if decide (class_id box = 1)%Z then
        set_indx_roi_coords (Some (x1 box, y1 box, x2 box, y2 box)) self
      else if decide (class_id box = 2)%Z then
        set_answers_roi_coords (Some (x1 box, y1 box, x2 box, y2 box)) self
      else if decide (class_id box = 0)%Z then
        let center_x := ((x1 box + x2 box) / 2)%float in
        let center_y := ((y1 box + y2 box) / 2)%float in
        let mark := {| center_x := center_x; center_y := center_y;
                       confidence := box_confidence box |} in
        set_detected_answers_marks (detected_answers_marks self ++ [mark])
          (set_detected_indx_marks (detected_indx_marks self ++ [mark]) self)
      else self)
      self in
  indx_roi_coords self' = last_roi 1 boxes (indx_roi_coords self)
  ∧ answers_roi_coords self' = last_roi 2 boxes (answers_roi_coords self)
  ∧ detected_indx_marks self' = detected_indx_marks self ++ box_marks boxes
  ∧ detected_answers_marks self' = detected_answers_marks self ++ box_marks boxes.
Proof.
  induction boxes as [|b boxes IH] using rev_ind.
  - cbn. by rewrite !app_nil_r.
  - cbv zeta in *. rewrite for_each_snoc.
    destruct IH as (Hi & Ha & Hmi & Hma).
    unfold last_roi, box_marks in *. rewrite !filter_app, !filter_cons, !filter_nil.
    repeat case_decide; try lia; rewrite ?app_nil_r, ?fmap_app, ?last_snoc;
      cbn [indx_roi_coords answers_roi_coords detected_indx_marks detected_answers_marks
           set_indx_roi_coords set_answers_roi_coords set_detected_indx_marks
           set_detected_answers_marks];
      rewrite ?Hi, ?Ha, ?Hmi, ?Hma, ?app_assoc; done.
Qed.

Lemma start_shading_processing_closed (boxes : list DetectionBox) (self : McqMarker) :
  let self' := start_shading_processing boxes self in
  indx_roi_coords self' = last_roi 1 boxes (indx_roi_coords self)
  ∧ answers_roi_coords self' = last_roi 2 boxes (answers_roi_coords self)
  ∧ detected_indx_marks self'
    = marks_in (indx_roi_coords self') (detected_indx_marks self ++ box_marks boxes)
  ∧ detected_answers_marks self'
    = marks_in (answers_roi_coords self') (detected_answers_marks self ++ box_marks boxes).
Proof.
  pose proof (shading_loop boxes self) as Hloop. cbv zeta in Hloop.
  unfold start_shading_processing. cbv zeta.
  set (s := Py.for_each boxes _ self) in *. clearbody s.
  destruct Hloop as (Hi & Ha & Hmi & Hma). rewrite <- Hi, <- Ha, <- Hmi, <- Hma.
  destruct (indx_roi_coords s) as [ri|] eqn:Ei, (answers_roi_coords s) as [ra|] eqn:Ea;
    unfold set_detected_answers_marks, set_detected_indx_marks;
    cbn [indx_roi_coords answers_roi_coords detected_indx_marks detected_answers_marks];
    rewrite ?Ei, ?Ea; done.
Qed.


(** ** Alphabets *)








Lemma index_digit_alphabet (x_start y_start cw rh : float) (marks : list Mark) (col : nat) :
  index_digit (omap (indx_label_for (digit_centers x_start y_start cw rh) col) marks)
  ∈ index_alphabet.
Proof.
  unfold index_alphabet. apply elem_of_app.
  set (labels := omap _ marks).
  destruct (index_digit_cases labels) as [->|[->|Hin]].
  - right. left.
  - right. right. left.
  - left. subst labels. apply list_elem_of_omap in Hin as (m & _ & Hm).
    unfold indx_label_for in Hm.
    destruct (closest_digit_center m _) as [a|] eqn:Ha; [|done].
    cbn [mbind option_bind] in Hm. case_decide; [|done]. injection Hm as Hm.
    apply closest_digit_center_elem_of, digit_centers_elem_of in Ha
      as (c & d & _ & Hd & ->).
    cbn [dc_digit digit_center] in Hm.
    apply list_elem_of_fmap. exists d. split; [symmetry; exact Hm|].
    apply elem_of_seq. lia.
Qed.

Lemma index_number_alphabet (x_start y_start cw rh : float) (marks : list Mark) :
  let indxNo :=
    String.concat ""
      (index_digits (map_indx_marks (digit_centers x_start y_start cw rh) marks)) in
  String.length indxNo = 7%nat
  ∧ ∀ i ch, String.get i indxNo = Some ch → String ch "" ∈ index_alphabet.
Proof.
  intros indxNo. split; [apply index_number_chars|].
  intros i ch Hget. subst indxNo.
  set (mpc := map_indx_marks _ marks) in *.
  assert (Forall (λ s, s ∈ index_alphabet) (index_digits mpc)) as Hall.
  { rewrite index_digits_closed. apply Forall_fmap, Forall_forall.
    intros c Hc. apply elem_of_seq in Hc. cbn [compose]. subst mpc.
    rewrite map_indx_marks_lookup by lia.
    apply index_digit_alphabet. }
  destruct (single_chars (index_digits mpc)) as [chars Hchars].
  { eapply Forall_impl; [exact Hall|]. intros s Hs. unfold index_alphabet in Hs.
    cbn in Hs. repeat (apply elem_of_cons in Hs as [->|Hs]; [by eexists|]).
    by apply elem_of_nil in Hs. }
  rewrite Hchars in Hget, Hall. rewrite join_chars_get in Hget.
  rewrite Forall_forall in Hall. apply Hall, list_elem_of_fmap.
  exists ch. split; [done|]. by eapply list_elem_of_lookup_2.
Qed.

(** The three ways the index stage ends. *)
Lemma start_indx_processing_cases (w : World) (self : McqMarker) :
  match indx_roi_coords self with
  | None =>
      start_indx_processing w self
      = (print "Error: Index ROI coordinates not detected by the model." w, self)
  | Some roi =>
      let rect := indx_calc_rect roi in
      if Py.leb (rect.2 - rect.1.1.2) 0 || Py.leb (rect.1.2 - rect.1.1.1) 0 then
        start_indx_processing w self
        = (print "Error: Detected Index ROI dimensions are invalid." w, self)
      else
        ∃ indxNo,
          start_indx_processing w self = (w, set_index_number indxNo self)
          ∧ String.length indxNo = 7%nat
          ∧ ∀ i ch, String.get i indxNo = Some ch → String ch "" ∈ index_alphabet
  end.
Proof.
  unfold start_indx_processing. destruct (indx_roi_coords self) as [[[[a b] c] d]|]; [|done].
  unfold indx_calc_rect. cbv iota beta zeta. cbn [fst snd].
  case_match; [done|]. eexists. split; [reflexivity|]. apply index_number_alphabet.
Qed.


(** ** The handler in closed form *)

Lemma deref_new_list (xs : list SchemeEntry) (w : World) :
  deref (new_list xs w).2 (new_list xs w).1 = xs.
Proof. unfold deref, new_list. cbn. by rewrite lookup_insert_eq. Qed.

Lemma deref_print (line : string) (w : World) (l : loc) :
  deref (print line w) l = deref w l.
Proof. done. Qed.

Lemma start_indx_processing_heap (w : World) (self : McqMarker) :
  heap (start_indx_processing w self).1 = heap w.
Proof.
  unfold start_indx_processing. destruct (indx_roi_coords self) as [[[[a b] c] d]|]; [|done].
  unfold indx_calc_rect. cbv iota beta zeta. by case_match.
Qed.

Lemma deref_heap (w w' : World) (l : loc) : heap w = heap w' → deref w l = deref w' l.
Proof. unfold deref. by intros ->. Qed.

Lemma start_indx_processing_mark_scheme (w : World) (self : McqMarker) :
  mark_scheme (start_indx_processing w self).2 = mark_scheme self.
Proof.
  unfold start_indx_processing. destruct (indx_roi_coords self) as [[[[a b] c] d]|]; [|done].
  unfold indx_calc_rect. cbv iota beta zeta. by case_match.
Qed.

(** The index number is left alone or becomes 7 characters of the
    alphabet. *)
Lemma start_indx_processing_index_number (w : World) (self : McqMarker) :
  let indxNo := index_number (start_indx_processing w self).2 in
  indxNo = index_number self
  ∨ (String.length indxNo = 7%nat
     ∧ ∀ i ch, String.get i indxNo = Some ch → String ch "" ∈ index_alphabet).
Proof.
  pose proof (start_indx_processing_cases w self) as Hcases.
  destruct (indx_roi_coords self) as [roi|]; [|rewrite Hcases; by left].
  cbv zeta in Hcases. case_match; [rewrite Hcases; by left|].
  destruct Hcases as (indxNo & -> & Hlen & Hchars). by right.
Qed.

(** The object the handler works on after detection. *)
Lemma process_direct_detected (boxes : list DetectionBox) (path test : string) (n : Z)
    (mode : bool) (l : loc) :
  let self := start_shading_processing boxes (McqMarker_init path test n mode (Some l)) in
  is_scheme self = mode ∧ questions self = n ∧ index_number self = ""
  ∧ student_answer self = [] ∧ mark_scheme self = l
  ∧ answers_roi_coords self = last_roi 2 boxes None
  ∧ indx_roi_coords self = last_roi 1 boxes None
  ∧ detected_answers_marks self = marks_in (last_roi 2 boxes None) (box_marks boxes)
  ∧ detected_indx_marks self = marks_in (last_roi 1 boxes None) (box_marks boxes).
Proof.
  intros self.
  destruct (start_shading_processing_session boxes (McqMarker_init path test n mode (Some l)))
    as (H1 & H2 & H3 & H4 & H5 & _).
  destruct (start_shading_processing_closed boxes (McqMarker_init path test n mode (Some l)))
    as (H6 & H7 & H8 & H9).
  fold self in H1, H2, H3, H4, H5, H6, H7, H8, H9. cbn in *.
  rewrite <- H7, <- H6. done.
Qed.

Lemma start_answer_processing_scheme_run (w : World) (self : McqMarker) (roi : ROI) :
  is_scheme self = true → answers_roi_coords self = Some roi →
  ∃ w', start_answer_processing w self = (w', self)
        ∧ stdout w' = stdout w
        ∧ deref w' (mark_scheme self)
          = deref w (mark_scheme self) ++
              ((λ q_num,
                  {| se_answer_to := q_num;
                     se_answer := detected_answer
                                    (answer_marks roi (detected_answers_marks self)) q_num |})
               <$> seqZ 1 (questions self)).
Proof.
  intros Hmode Hroi. rewrite (start_answer_processing_eq w self roi) by done.
  apply record_answers_scheme, Hmode.
Qed.

Lemma sheet_scheme_eq (boxes : list DetectionBox) (n : Z) :
  sheet_scheme boxes n =
    match last_roi 2 boxes None with
    | Some roi =>
        (λ q_num,
           {| se_answer_to := q_num;
              se_answer :=
                detected_answer (answer_marks roi (marks_in (Some roi) (box_marks boxes)))
                  q_num |})
        <$> seqZ 1 n
    | None => []
    end.
Proof.
  unfold sheet_scheme, sheet_answers. destruct (last_roi 2 boxes None); [|done].
  by rewrite <- list_fmap_compose.
Qed.

(** Scheme mode: the stages run on any id; the scheme of the sheet is then
    written to the test with that id, if [ObjectId] accepts it. *)
Lemma process_direct_scheme_closed (ObjectId : string → option oid)
    (str : Exception → string) (db : Database) (w : World) (boxes : list DetectionBox)
    (filename test_id : string) (end_number : Z) :
  ∃ w',
    stdout w' = stdout w ++ answers_roi_errors boxes
    ∧ process_direct ObjectId str db w boxes filename test_id end_number true
      = match ObjectId test_id with
        | Some test_oid =>
            ({| tests := alter (λ _, {| test_scheme := Some (sheet_scheme boxes end_number) |})
                           test_oid (tests db);
                scripts := scripts db |},
             w', Message "Scheme added successfully")
        | None =>
            (db, print (String.append "Error: " (str (InvalidId test_id))) w',
             InternalServerError (str (InvalidId test_id)))
        end.
Proof.
  unfold process_direct. cbn [negb].
  pose proof (deref_new_list [] w) as Hnew.
  assert (stdout (new_list [] w).2 = stdout w) as Hout by done.
  destruct (new_list [] w) as [l w1]. cbn [fst snd] in Hnew, Hout.
  pose proof (process_direct_detected boxes (String.append "temp_" filename) test_id
                end_number true l) as Hself.
  cbv zeta in Hself. set (self := start_shading_processing boxes _) in *. clearbody self.
  destruct Hself as (Hmode & Hq & _ & _ & Hl & Hroi & _ & Hmarks & _).
  rewrite sheet_scheme_eq.
  unfold answers_roi_errors, add_scheme, internal_server_error.
  destruct (last_roi 2 boxes None) as [roi|] eqn:Eroi.
  - destruct (start_answer_processing_scheme_run w1 self roi Hmode Hroi)
      as (w' & Hrun & Hout' & Hscheme).
    rewrite Hrun. unfold marking_outcome. rewrite Hmode.
    exists w'. split; [by rewrite Hout', Hout, app_nil_r|].
    rewrite Hscheme, Hl, Hnew, Hq, Hmarks. cbn [app].
    by destruct (ObjectId test_id).
  - rewrite (start_answer_processing_missing w1 self Hroi).
    unfold marking_outcome. rewrite Hmode.
    exists (print "Error: Answers ROI coordinates not detected by the model." w1). split.
    + cbn [stdout print]. by rewrite Hout.
    + rewrite deref_print, Hl, Hnew. by destruct (ObjectId test_id).
Qed.

Lemma start_indx_processing_sheet (w : World) (self : McqMarker)
    (boxes : list DetectionBox) :
  index_number self = "" → indx_roi_coords self = last_roi 1 boxes None →
  detected_indx_marks self = marks_in (last_roi 1 boxes None) (box_marks boxes) →
  index_number (start_indx_processing w self).2 = sheet_index_number boxes.
Proof.
  intros Hidx Hroi Hmarks. unfold start_indx_processing, sheet_index_number.
  rewrite Hroi, Hmarks. destruct (last_roi 1 boxes None) as [[[[a b] c] d]|]; [|done].
  unfold indx_calc_rect. cbv iota beta zeta. by case_match.
Qed.

Lemma start_indx_processing_stdout (w : World) (self : McqMarker)
    (boxes : list DetectionBox) :
  indx_roi_coords self = last_roi 1 boxes None →
  stdout (start_indx_processing w self).1 = stdout w ++ indx_roi_errors boxes.
Proof.
  intros Hroi. unfold start_indx_processing, indx_roi_errors.
  rewrite Hroi. destruct (last_roi 1 boxes None) as [[[[a b] c] d]|]; [|done].
  unfold indx_calc_rect. cbv iota beta zeta. case_match; [done|].
  cbn [fst]. by rewrite app_nil_r.
Qed.


(** Script mode at the id of a stored test that has a scheme. *)
Lemma process_direct_script_closed (ObjectId : string → option oid)
    (str : Exception → string) (db : Database) (w : World) (boxes : list DetectionBox)
    (filename test_id : string) (end_number : Z) (test_oid : oid) (test : TestDoc)
    (stored_scheme : list SchemeEntry) :
  ObjectId test_id = Some test_oid → tests db !! test_oid = Some test →
  test_scheme test = Some stored_scheme →
  ∃ w',
    let saved :=
      update_one_upsert (sheet_script test_oid boxes end_number stored_scheme)
        (scripts db) in
    stdout w' = stdout w ++ indx_roi_errors boxes ++ answers_roi_errors boxes
    ∧ process_direct ObjectId str db w boxes filename test_id end_number false
      = ({| tests := tests db; scripts := saved.1 |}, w',
         Message (if saved.2 then "Script added successfully"
                  else "Script updated successfully")).
Proof.
  intros Hid Htest Hstored.
  rewrite (process_direct_script ObjectId str db w boxes filename test_id end_number
             test_oid test stored_scheme Hid Htest Hstored).
  pose proof (deref_new_list stored_scheme w) as Hnew.
  assert (stdout (new_list stored_scheme w).2 = stdout w) as Hout by done.
  destruct (new_list stored_scheme w) as [l w1]. cbn [fst snd] in *.
  pose proof (process_direct_detected boxes (String.append "temp_" filename) test_id
                end_number false l) as Hself.
  cbv zeta in Hself. set (self := start_shading_processing boxes _) in *. clearbody self.
  destruct Hself as (Hmode & Hq & Hidx & Hans & Hl & Hroi & Hiroi & Hmarks & Himarks).
  pose proof (start_indx_processing_fields w1 self) as (Hmode1 & Hq1 & Hans1 & Hroi1 & Hmarks1).
  pose proof (start_indx_processing_heap w1 self) as Hheap.
  pose proof (start_indx_processing_mark_scheme w1 self) as Hl1.
  pose proof (start_indx_processing_sheet w1 self boxes Hidx Hiroi Himarks) as Hidx1.
  pose proof (start_indx_processing_stdout w1 self boxes Hiroi) as Hout1.
  destruct (start_indx_processing w1 self) as [w2 self2]. cbn [fst snd] in *.
  rewrite Hmode in Hmode1. rewrite Hroi in Hroi1. rewrite Hout in Hout1.
  unfold sheet_script, graded_answers, sheet_answers, answers_roi_errors.
  destruct (last_roi 2 boxes None) as [roi|] eqn:Eroi.
  - rewrite (start_answer_processing_script w2 self2 roi) by done.
    cbn [fst snd student_answer set_student_answer index_number].
    rewrite Hans1, Hans, Hl1, Hl, Hq1, Hq, Hmarks1, Hmarks, (deref_heap w2 w1 l Hheap), Hnew,
      Hidx1.
    cbn [app]. rewrite <- !list_fmap_compose. exists w2.
    split; [by rewrite app_nil_r|done].
  - rewrite (start_answer_processing_missing w2 self2) by done.
    cbn [fst snd]. rewrite Hans1, Hans, Hidx1. eexists. split; [|done].
    cbn [stdout print]. by rewrite Hout1, app_assoc.
Qed.









(** ** Saving a script *)

Lemma update_one_upsert_upserted (script_data : ScriptDoc) (scripts : list ScriptDoc) :
  (update_one_upsert script_data scripts).2 = true
  ↔ Forall (λ doc, ¬ same_script doc script_data) scripts.
Proof.
  induction scripts as [|doc rest IH]; cbn; [done|].
  rewrite Forall_cons. unfold same_script at 1. case_decide as Hdoc; cbn.
  - split; [done|]. by intros [Hno _].
  - destruct (update_one_upsert script_data rest) as [rest' upserted]. cbn in *.
    rewrite IH. tauto.
Qed.

Lemma update_one_upsert_length (script_data : ScriptDoc) (scripts : list ScriptDoc) :
  length (update_one_upsert script_data scripts).1
  = (length scripts + if (update_one_upsert script_data scripts).2 then 1 else 0)%nat.
Proof.
  induction scripts as [|doc rest IH]; cbn; [done|].
  case_decide; cbn; [lia|].
  destruct (update_one_upsert script_data rest) as [rest' upserted]. cbn in *.
  by rewrite IH.
Qed.


(** ** The handler, from the boxes of a sheet to the database *)




(** The database after a scheme upload to a stored test. *)
Lemma process_direct_scheme_stored (ObjectId : string → option oid)
    (str : Exception → string) (db : Database) (w : World) (boxes : list DetectionBox)
    (filename test_id : string) (end_number : Z) (test_oid : oid) (test : TestDoc) :
  ObjectId test_id = Some test_oid → tests db !! test_oid = Some test →
  let db' := (process_direct ObjectId str db w boxes filename test_id end_number true).1.1 in
  tests db' !! test_oid = Some {| test_scheme := Some (sheet_scheme boxes end_number) |}
  ∧ scripts db' = scripts db.
Proof.
  intros Hid Htest db'. subst db'.
  destruct (process_direct_scheme_closed ObjectId str db w boxes filename test_id end_number)
    as (w' & _ & Hrun).
  rewrite Hrun, Hid. cbn [fst snd tests scripts]. split; [|done].
  by rewrite lookup_alter_eq, Htest.
Qed.





(** The run of the sample sheet against [short_scheme]: index number
    '3XXXXXX', answers B, X and M against B, D and '?', score 1. *)
Example script_upload_run :
  ∃ w',
    process_direct hex_object_id sample_str (sample_db short_scheme) module_loaded
      sample_boxes "script.jpg" sample_test_id 3 false
    = ({| tests := tests (sample_db short_scheme);
          scripts :=
            [ {| script_test_id := sample_test_id; script_index_number := "3XXXXXX";
                 script_score := 1;
                 script_answers :=
                   [ {| answer_to := 1; answer := "B"; correct_answer := "B" |};
                     {| answer_to := 2; answer := "X"; correct_answer := "D" |};
                     {| answer_to := 3; answer := "M"; correct_answer := "?" |} ];
                 script_file_id := "" |} ] |}, w',
       Message "Script added successfully")
    ∧ stdout w' = [].
Proof.
  destruct (process_direct_script_closed hex_object_id sample_str (sample_db short_scheme)
              module_loaded sample_boxes "script.jpg" sample_test_id 3%Z sample_test_id
              {| test_scheme := Some short_scheme |} short_scheme)
    as (w' & Hout & Hrun); [reflexivity|reflexivity|reflexivity|].
  exists w'. split; [rewrite Hrun|rewrite Hout]; vm_compute; reflexivity.
Qed.




(** The run behind it: the sample sheet against its own scheme scores 1 of
    3, question 2 being blank and question 3 marked twice. *)
Example self_grading_run :
  let db1 :=
    (process_direct hex_object_id sample_str (sample_db []) module_loaded sample_boxes
       "key.jpg" sample_test_id 3 true).1.1 in
  tests db1 !! sample_test_id
  = Some {| test_scheme :=
              Some [ {| se_answer_to := 1; se_answer := "B" |};
                     {| se_answer_to := 2; se_answer := "X" |};
                     {| se_answer_to := 3; se_answer := "M" |} ] |}
  ∧ ∃ w',
      process_direct hex_object_id sample_str db1 module_loaded sample_boxes "script.jpg"
        sample_test_id 3 false
      = ({| tests := tests db1;
            scripts :=
              [ {| script_test_id := sample_test_id; script_index_number := "3XXXXXX";
                   script_score := 1;
                   script_answers :=
                     [ {| answer_to := 1; answer := "B"; correct_answer := "B" |};
                       {| answer_to := 2; answer := "X"; correct_answer := "X" |};
                       {| answer_to := 3; answer := "M"; correct_answer := "M" |} ];
                   script_file_id := "" |} ] |}, w',
         Message "Script added successfully").
Proof.
  intros db1.
  assert (tests db1 !! sample_test_id
          = Some {| test_scheme := Some (sheet_scheme sample_boxes 3) |}
          ∧ scripts db1 = []) as [Hstored Hscripts].
  { apply (process_direct_scheme_stored hex_object_id sample_str (sample_db [])
             module_loaded sample_boxes "key.jpg" sample_test_id 3%Z sample_test_id
             {| test_scheme := Some [] |}); reflexivity. }
  clearbody db1.
  assert (sheet_scheme sample_boxes 3
          = [ {| se_answer_to := 1; se_answer := "B" |};
              {| se_answer_to := 2; se_answer := "X" |};
              {| se_answer_to := 3; se_answer := "M" |} ]) as Hscheme
    by (vm_compute; reflexivity).
  split; [rewrite <- Hscheme; exact Hstored|].
  destruct (process_direct_script_closed hex_object_id sample_str db1
              module_loaded sample_boxes "script.jpg" sample_test_id 3%Z sample_test_id
              _ (sheet_scheme sample_boxes 3) eq_refl Hstored eq_refl)
    as (w' & _ & Hrun).
  assert (sheet_script sample_test_id sample_boxes 3 (sheet_scheme sample_boxes 3)
          = {| script_test_id := sample_test_id; script_index_number := "3XXXXXX";
               script_score := 1;
               script_answers :=
                 [ {| answer_to := 1; answer := "B"; correct_answer := "B" |};
                   {| answer_to := 2; answer := "X"; correct_answer := "X" |};
                   {| answer_to := 3; answer := "M"; correct_answer := "M" |} ];
               script_file_id := "" |}) as Hscript by (vm_compute; reflexivity).
  exists w'. rewrite Hrun, Hscripts, Hscript. reflexivity.
Qed.










